(** * The controller activator of the MVC layer (mvc/activator/activator.go)

    A shallow embedding of [ActivateController], [HandlerOf],
    [RegisterMethodHandlers] and [Register], and the properties of the
    request lifecycle and of route registration that follow from the code.

    Conventions.
    - Go code that can panic returns a [Result].
    - Names of other Go packages are written with an underscore:
      [reflect_New] is [reflect.New], [context_Handler] is
      [context.Handler], [methodfunc_Resolve] is [methodfunc.Resolve].
    - The packages the activator only calls ([context], [methodfunc],
      [model], [persistence], the binder, golog) are parameters, gathered in
      the classes [Substrate] and [Collaborators]. *)

From Stdlib Require Import ZArith String Ascii.
From stdpp Require Import base tactics option list strings.

Set Implicit Arguments.

(** ** Results of Go code *)

Inductive Result (A : Type) : Type :=
| Ok (a : A)
| Panic (msg : string).
Arguments Ok {A} a.
Arguments Panic {A} msg.

Definition rbind {A B : Type} (m : Result A) (k : A -> Result B) : Result B :=
  match m with
  | Ok a => k a
  | Panic msg => Panic msg
  end.

Declare Scope result_scope.
Delimit Scope result_scope with res.
Notation "x <- m ;; k" := (rbind m (fun x => k))
  (at level 100, m at next level, right associativity) : result_scope.

(** The two run-time errors the activator can raise. *)
Definition nilDereference : string :=
  "runtime error: invalid memory address or nil pointer dereference".
Definition methodIndexOutOfRange : string :=
  "reflect: Method index out of range".

(** ** Strings: [strings.LastIndexByte] and the slice [s[i:]] *)

Fixpoint LastIndexByte (s : string) (c : ascii) : Z :=
  match s with
  | EmptyString => (-1)%Z
  | String a rest =>
      let r := LastIndexByte rest c in
      if (r <? 0)%Z
      then (if Ascii.eqb a c then 0%Z else (-1)%Z)
      else (r + 1)%Z
  end.

Definition sliceFrom (s : string) (i : Z) : string :=
  substring (Z.to_nat i) (String.length s - Z.to_nat i) s.

(** [pkgPath[strings.LastIndexByte(pkgPath, '/')+1:] + "." + ctrlName] *)
Definition fullNameOf (pkgPath ctrlName : string) : string :=
  (sliceFrom pkgPath (LastIndexByte pkgPath "/"%char + 1) ++ "." ++ ctrlName)%string.

(** [hasByte c s]: the byte [c] occurs in [s]. *)
Fixpoint hasByte (c : ascii) (s : string) : bool :=
  match s with
  | EmptyString => false
  | String a rest => Ascii.eqb a c || hasByte c rest
  end.

(** ** What the activator is built on

    The request context exposes the stopped flag; [Inst] is the value of a
    controller struct; [BindValue] is what [bindValues] holds; [Host] is the
    state of the router behind the registration callback. *)

Class Substrate : Type := {
  context_Context : Type;
  IsStopped : context_Context -> bool;
  Inst : Type;
  BindValue : Type;
  Host : Type
}.

(** Controller instances live on the heap; [reflect.New] returns a pointer. *)
Abbreviation Ptr := nat (only parsing).
Abbreviation Heap := (list Inst) (only parsing).

Section Model.

Context {sub : Substrate}.

(** The calls a handler makes on its collaborators, each with the pointer
    [c] it passes. *)
Inductive Event : Type :=
| EvBinderHandle (c : Ptr)
| EvSetName (c : Ptr) (name : string)
| EvPersistenceHandle (c : Ptr)
| EvBeginRequest (c : Ptr)
| EvMethodCall (index : Z) (c : Ptr)
| EvModelHandle (c : Ptr)
| EvEndRequest (c : Ptr).

Definition receiver (ev : Event) : Ptr :=
  match ev with
  | EvBinderHandle c | EvSetName c _ | EvPersistenceHandle c | EvBeginRequest c
  | EvMethodCall _ c | EvModelHandle c | EvEndRequest c => c
  end.

(** What belongs to one request: its context, and two records kept by the
    embedding: the calls made so far and the instances allocated so far
    (pointer and initial value). *)
Record Request : Type := {
  ctx : context_Context;
  trace : list Event;
  allocs : list (Ptr * Inst)
}.

(** [context.Handler] is [func(Context)]; a handler acts on the request and
    on the heap. [None] is the nil handler. *)
Definition HandlerFunc : Type := Request -> Heap -> Result (Request * Heap).
Definition context_Handler : Type := option HandlerFunc.

(** A method of a controller: it sees the context and its receiver. Hooks
    and user methods are taken to return. *)
Definition Hook : Type := context_Context -> Inst -> context_Context * Inst.

(** [type BaseController interface] *)
Record BaseController : Type := {
  SetName : string -> Inst -> Inst;
  BeginRequest : Hook;
  EndRequest : Hook
}.

(** A declared controller type [T]: its package path and name, its zero
    value, the [BaseController] methods and the exported methods of [*T] in
    the order of [reflect.Value.Method]. *)
Record TypeDecl : Type := {
  PkgPath : string;
  TypeName : string;
  zero : Inst;
  base : BaseController;
  Methods : list Hook
}.

(** [reflect.Type], for the types of controller values: [T] and [*T]. *)
Inductive reflect_Type : Type :=
| TNamed (d : TypeDecl)
| TPtr (d : TypeDecl).

Inductive reflect_Kind : Type := KPtr | KStruct.

Definition Type_Kind (typ : reflect_Type) : reflect_Kind :=
  match typ with TNamed _ => KStruct | TPtr _ => KPtr end.

Definition Kind_eqb (a b : reflect_Kind) : bool :=
  match a, b with KPtr, KPtr | KStruct, KStruct => true | _, _ => false end.

(** [reflect.PtrTo]; only asked for named types. *)
Definition reflect_PtrTo (typ : reflect_Type) : reflect_Type :=
  match typ with TNamed d => TPtr d | TPtr d => TPtr d end.

(** [Type.Elem] of the two kinds of type above: the element of [*T], a
    panic on the struct type [T]. (Arrays, channels, maps and slices, on
    which Go's [Elem] also returns, are not among the types modelled.) *)
Definition Type_Elem (typ : reflect_Type) : Result TypeDecl :=
  match typ with
  | TPtr d => Ok d
  | TNamed _ => Panic "reflect: Elem of invalid type"
  end.

Definition Type_Name (typ : reflect_Type) : string :=
  match typ with TNamed d => TypeName d | TPtr _ => "" end.

Definition Type_PkgPath (typ : reflect_Type) : string :=
  match typ with TNamed d => PkgPath d | TPtr _ => "" end.

(** [reflect.Value]: the zero Value, a struct value, or a pointer (whose
    target is [None] when the pointer is nil). Whether a struct value is
    addressable, and what memory it refers to, is not represented. *)
Inductive reflect_Value : Type :=
| ZeroValue
| VStruct (d : TypeDecl) (v : Inst)
| VPointer (d : TypeDecl) (target : option Inst).

(** A value of the interface type [BaseController]: nil, a pointer [*T] or a
    value [T]. *)
Inductive BaseValue : Type :=
| NilInterface
| PointerTo (d : TypeDecl) (target : option Inst)
| StructOf (d : TypeDecl) (v : Inst).

Definition reflect_TypeOf (b : BaseValue) : option reflect_Type :=
  match b with
  | NilInterface => None
  | PointerTo d _ => Some (TPtr d)
  | StructOf d _ => Some (TNamed d)
  end.

Definition reflect_ValueOf (b : BaseValue) : reflect_Value :=
  match b with
  | NilInterface => ZeroValue
  | PointerTo d target => VPointer d target
  | StructOf d v => VStruct d v
  end.

Definition reflect_Indirect (v : reflect_Value) : reflect_Value :=
  match v with
  | VPointer d (Some x) => VStruct d x
  | VPointer _ None => ZeroValue
  | _ => v
  end.

Definition Value_Type (v : reflect_Value) : Result reflect_Type :=
  match v with
  | ZeroValue => Panic "reflect: call of reflect.Value.Type on zero Value"
  | VStruct d _ => Ok (TNamed d)
  | VPointer d _ => Ok (TPtr d)
  end.

(** The binder: the names of its fields (for the log), its middleware and
    [handle]. *)
Record Binder : Type := {
  fields : list string;
  middleware : list context_Handler;
  handle : Inst -> Inst
}.

Record model_Controller : Type := {
  model_Handle : context_Context -> Inst -> context_Context
}.

Record persistence_Controller : Type := {
  persistence_Handle : Inst -> Inst
}.

Record TController : Type := {
  Name : string;
  FullName : string;
  Typ : reflect_Type;
  Value : reflect_Value;
  binder : option Binder;
  modelController : option model_Controller;
  persistenceController : option persistence_Controller
}.

(** [methodfunc.MethodFunc]: [MName] is [FuncInfo.Name]; [MethodCall] is the
    adapter that calls the bound method, nil when [None]. *)
Record MethodFunc : Type := {
  MName : string;
  HTTPMethod : string;
  Index : Z;
  RelPath : string;
  MethodCall : option (Hook -> Hook)
}.

(** ** The body of a handler

    The closure returned by [HandlerOf] is a program over five primitives:
    allocation, a read of and an assignment to the captured descriptor [t]
    (Go lets a closure assign to a variable it captures), the test
    [ctx.IsStopped()], and a call on the instance [receiver ev] whose effect
    on the context and on the instance is [f]. Each primitive is one atomic
    step of the worker that runs the handler. *)

Inductive Prog : Type :=
| Ret
| Throw (msg : string)
| New (d : TypeDecl) (k : Ptr -> Prog)
| Captured (k : TController -> Prog)
| AssignCaptured (t : TController) (k : Prog)
| Stopped (k : bool -> Prog)
| Call (ev : Event) (f : Hook) (k : Prog).

(** [p ;; q]: run [p], then [q] (a panic of [p] ends both; a [return] is
    written by not sequencing what follows). *)
Fixpoint seq (p q : Prog) : Prog :=
  match p with
  | Ret => q
  | Throw msg => Throw msg
  | New d k => New d (fun c => seq (k c) q)
  | Captured k => Captured (fun t => seq (k t) q)
  | AssignCaptured t k => AssignCaptured t (seq k q)
  | Stopped k => Stopped (fun b => seq (k b) q)
  | Call ev f k => Call ev f (seq k q)
  end.

Declare Scope prog_scope.
Delimit Scope prog_scope with prog.
Bind Scope prog_scope with Prog.
Notation "p ;; q" := (seq p q)
  (at level 100, q at level 200, right associativity) : prog_scope.

(** The state of one invocation of a closure: the variable [t] it captured
    and the request it serves. *)
Record Frame : Type := {
  captured : TController;
  req : Request
}.

(** One atomic step: the primitive at the head of [p] acts on the frame
    and on the heap, and the rest of the program is returned. *)
Definition step (p : Prog) (f : Frame) (h : Heap) : Result (Prog * Frame * Heap) :=
  match p with
  | Ret => Ok (Ret, f, h)
  | Throw msg => Panic msg
  | New d k =>
      let c := length h in
      Ok (k c,
          {| captured := captured f;
             req := {| ctx := ctx (req f); trace := trace (req f);
                       allocs := allocs (req f) ++ [(c, zero d)] |} |},
          h ++ [zero d])
  | Captured k => Ok (k (captured f), f, h)
  | AssignCaptured t k => Ok (k, {| captured := t; req := req f |}, h)
  | Stopped k => Ok (k (IsStopped (ctx (req f))), f, h)
  | Call ev g k =>
      match h !! receiver ev with
      | None => Panic nilDereference
      | Some v =>
          let r := g (ctx (req f)) v in
          Ok (k,
              {| captured := captured f;
                 req := {| ctx := r.1; trace := trace (req f) ++ [ev];
                           allocs := allocs (req f) |} |},
              <[receiver ev := r.2]> h)
      end
  end.

(** A worker running the program to its end, step after step (lemma
    [exec_run] relates it to the scheduled workers below). *)
Fixpoint exec (p : Prog) (f : Frame) (h : Heap) : Result (Frame * Heap) :=
  match p with
  | Ret => Ok (f, h)
  | Throw msg => Panic msg
  | New d k =>
      match step p f h with
      | Ok (_, f', h') => exec (k (length h)) f' h'
      | Panic msg => Panic msg
      end
  | Captured k =>
      match step p f h with
      | Ok (_, f', h') => exec (k (captured f)) f' h'
      | Panic msg => Panic msg
      end
  | AssignCaptured _ k | Call _ _ k =>
      match step p f h with
      | Ok (_, f', h') => exec k f' h'
      | Panic msg => Panic msg
      end
  | Stopped k =>
      match step p f h with
      | Ok (_, f', h') => exec (k (IsStopped (ctx (req f)))) f' h'
      | Panic msg => Panic msg
      end
  end.

(** A closure over [t] as a [context.Handler]. *)
Definition func (t : TController) (body : Prog) : HandlerFunc :=
  fun r h =>
    match exec body {| captured := t; req := r |} h with
    | Ok (f, h') => Ok (req f, h')
    | Panic msg => Panic msg
    end.

(** ** [HandlerOf] *)

Notation "x <-- e ;; k" := (e (fun x => k))
  (at level 100, e at next level, right associativity, only parsing) : prog_scope.

Definition reflect_New (elem : TypeDecl) (k : Ptr -> Prog) : Prog := New elem k.
Definition ctx_IsStopped (k : bool -> Prog) : Prog := Stopped k.

(** [t.binder.handle(c)], [t.persistenceController.Handle(c)] and
    [b.SetName(name)] do not receive the context. *)
Definition onInstance (g : Inst -> Inst) : Hook := fun x v => (x, g v).

Definition binder_handle (b : Binder) (c : Ptr) : Prog :=
  Call (EvBinderHandle c) (onInstance (handle b)) Ret.
Definition b_SetName (b : BaseController) (c : Ptr) (name : string) : Prog :=
  Call (EvSetName c name) (onInstance (SetName b name)) Ret.
Definition persistenceController_Handle (pc : persistence_Controller) (c : Ptr) : Prog :=
  Call (EvPersistenceHandle c) (onInstance (persistence_Handle pc)) Ret.
Definition b_BeginRequest (b : BaseController) (c : Ptr) : Prog :=
  Call (EvBeginRequest c) (BeginRequest b) Ret.
Definition b_EndRequest (b : BaseController) (c : Ptr) : Prog :=
  Call (EvEndRequest c) (EndRequest b) Ret.
(** [t.modelController.Handle(ctx, c)] reads the instance and writes to the
    context. *)
Definition modelController_Handle (mc : model_Controller) (c : Ptr) : Prog :=
  Call (EvModelHandle c) (fun x v => (model_Handle mc x v, v)) Ret.

(** [c.Method(i)] panics unless [0 <= i < NumMethod]. *)
Definition Value_Method (elem : TypeDecl) (i : Z) : option Hook :=
  if (i <? 0)%Z then None else Methods elem !! Z.to_nat i.

(** [handleRequest(ctx, c.Method(methodFunc.Index))] *)
Definition callMethod (elem : TypeDecl) (handleRequest : option (Hook -> Hook))
    (index : Z) (c : Ptr) : Prog :=
  match Value_Method elem index with
  | None => Throw methodIndexOutOfRange
  | Some f =>
      match handleRequest with
      | None => Throw nilDereference
      | Some call => Call (EvMethodCall index c) (call f) Ret
      end
  end.

(** The function literal of [HandlerOf], over the variables it captures.
    The pointer [c] has type [*elem], whose method set holds the
    [BaseController] methods of [elem], so the assertion
    [c.Interface().(BaseController)] yields [base elem] on [c]. *)
Definition handlerBody (elem : TypeDecl) (ctrlName : string)
    (hasPersistenceData hasModels : bool)
    (handleRequest : option (Hook -> Hook)) (methodFunc : MethodFunc) : Prog :=
  (c <-- reflect_New elem ;;
   (t <-- Captured ;;
    match binder t with
    | Some bd => binder_handle bd c
    | None => Ret
    end) ;;
   let b := base elem in
   b_SetName b c ctrlName ;;
   (if hasPersistenceData
    then (t <-- Captured ;;
          match persistenceController t with
          | Some pc => persistenceController_Handle pc c
          | None => Throw nilDereference
          end)
    else Ret) ;;
   stopped <-- ctx_IsStopped ;;
   if stopped : bool then Ret else
   b_BeginRequest b c ;;
   stopped <-- ctx_IsStopped ;;
   if stopped : bool then Ret else
   callMethod elem handleRequest (Index methodFunc) c ;;
   (if hasModels
    then (t <-- Captured ;;
          match modelController t with
          | Some mc => modelController_Handle mc c
          | None => Throw nilDereference
          end)
    else Ret) ;;
   b_EndRequest b c)%prog.

Definition HandlerOf (t : TController) (methodFunc : MethodFunc) : Result context_Handler :=
  (elem <- Type_Elem (Typ t) ;;
   let ctrlName := Name t in
   let hasPersistenceData := bool_decide (persistenceController t <> None) in
   let hasModels := bool_decide (modelController t <> None) in
   let handleRequest := MethodCall methodFunc in
   Ok (Some (func t
     (handlerBody elem ctrlName hasPersistenceData hasModels handleRequest methodFunc))))%res.

(** ** Registration *)

(** [type RegisterFunc func(relPath string, httpMethod string, handler ...context.Handler)],
    acting on the host router. *)
Definition RegisterFunc : Type := string -> string -> list context_Handler -> Host -> Host.

(** One call of the registration callback. *)
Record RouteCall : Type := {
  relPath : string;
  httpMethod : string;
  handlers : list context_Handler
}.

(** The lines written through golog. *)
Inductive LogEntry : Type :=
| DebugBinderLoaded (fullName field : string)
| ErrorResolve (fullName err : string)
| WarnNilHandler (fullName name : string)
| DebugMaps (fullName httpMethod relPath : string) (index : Z) (name : string).

(** What registration acts on: the log, the host router, and the record of
    the calls made to the registration callback. *)
Record Registry : Type := {
  log : list LogEntry;
  calls : list RouteCall;
  host : Host
}.

Definition golog (e : LogEntry) (w : Registry) : Registry :=
  {| log := log w ++ [e]; calls := calls w; host := host w |}.

Definition callRegisterFunc (registerFunc : RegisterFunc)
    (path verb : string) (hs : list context_Handler) (w : Registry) : Registry :=
  {| log := log w;
     calls := calls w ++ [{| relPath := path; httpMethod := verb; handlers := hs |}];
     host := registerFunc path verb hs (host w) |}.

(** The functions of the repository and of its packages that the activator
    calls and that live in other files. *)
Class Collaborators : Type := {
  newBinder : TypeDecl -> list BindValue -> option Binder;
  model_Load : reflect_Type -> option model_Controller;
  persistence_Load : reflect_Type -> reflect_Value -> option persistence_Controller;
  methodfunc_Resolve : reflect_Type -> list MethodFunc * option string;
  CallOnActivate :
    BaseValue -> list BindValue -> RegisterFunc -> Registry -> list BindValue * Registry
}.

Context {C : Collaborators}.

Definition ActivateController (b : BaseValue) (bindValues : list BindValue)
    (w : Registry) : Result (TController * option string * Registry) :=
  match reflect_TypeOf b with
  | None => Panic nilDereference
  | Some typ0 =>
      let typ :=
        if negb (Kind_eqb (Type_Kind typ0) KPtr) then reflect_PtrTo typ0 else typ0 in
      let val := reflect_Indirect (reflect_ValueOf b) in
      (valType <- Value_Type val ;;
       let ctrlName := Type_Name valType in
       let pkgPath := Type_PkgPath valType in
       let fullName := fullNameOf pkgPath ctrlName in
       elem <- Type_Elem typ ;;
       let bd := newBinder elem bindValues in
       let w :=
         match bd with
         | Some bd' => foldl (fun w bf => golog (DebugBinderLoaded fullName bf) w) w (fields bd')
         | None => w
         end in
       let t := {| Name := ctrlName;
                   FullName := fullName;
                   Typ := typ;
                   Value := val;
                   binder := bd;
                   modelController := model_Load typ;
                   persistenceController := persistence_Load typ val |} in
       Ok (t, None, w))%res
  end.

(** The loop of [RegisterMethodHandlers] over the resolved methods. The
    callback receives [append(middleware, h)] as the slice reads at the
    time of the call. *)
Fixpoint registerEach (t : TController) (registerFunc : RegisterFunc)
    (mw : list context_Handler) (methods : list MethodFunc) (w : Registry)
    : Result Registry :=
  match methods with
  | [] => Ok w
  | m :: rest =>
      (h <- HandlerOf t m ;;
       match h with
       | None =>
           registerEach t registerFunc mw rest (golog (WarnNilHandler (FullName t) (MName m)) w)
       | Some _ =>
           let registeredHandlers := mw ++ [h] in
           let w := callRegisterFunc registerFunc (RelPath m) (HTTPMethod m) registeredHandlers w in
           let w := golog (DebugMaps (FullName t) (HTTPMethod m) (RelPath m) (Index m) (MName m)) w in
           registerEach t registerFunc mw rest w
       end)%res
  end.

Definition RegisterMethodHandlers (t : TController) (registerFunc : RegisterFunc)
    (w : Registry) : Result Registry :=
  let mw :=
    match binder t with
    | Some bd => if bool_decide (0 < length (middleware bd)) then middleware bd else []
    | None => []
    end in
  let '(methods, err) := methodfunc_Resolve (Typ t) in
  let w :=
    match err with
    | Some e => golog (ErrorResolve (FullName t) e) w
    | None => w
    end in
  registerEach t registerFunc mw methods w.

Definition Register (controller : BaseValue) (bindValues : list BindValue)
    (registerFunc : RegisterFunc) (w : Registry) : Result (option string * Registry) :=
  let '(bindValues, w) := CallOnActivate controller bindValues registerFunc w in
  (r <- ActivateController controller bindValues w ;;
   let '(t, err, w) := r in
   match err with
   | Some e => Ok (Some e, w)
   | None =>
       w <- RegisterMethodHandlers t registerFunc w ;;
       Ok (None, w)
   end)%res.

(** ** Workers

    One worker per request runs the handler; the workers share the heap and
    a schedule picks which one takes the next atomic step. *)

Record Thread : Type := {
  code : Prog;
  frame : Frame
}.

Definition newRequest (x : context_Context) : Request :=
  {| ctx := x; trace := []; allocs := [] |}.

Definition spawn (t : TController) (body : Prog) (x : context_Context) : Thread :=
  {| code := body; frame := {| captured := t; req := newRequest x |} |}.

Definition advance (th : Thread) (h : Heap) : Result (Thread * Heap) :=
  match step (code th) (frame th) h with
  | Ok (p, f, h') => Ok ({| code := p; frame := f |}, h')
  | Panic msg => Panic msg
  end.

(** [schedule] names, step by step, the worker that runs; a name outside
    the pool is an idle step. *)
Fixpoint run (schedule : list nat) (pool : list Thread) (h : Heap)
    : Result (list Thread * Heap) :=
  match schedule with
  | [] => Ok (pool, h)
  | i :: rest =>
      match pool !! i with
      | None => run rest pool h
      | Some th =>
          match advance th h with
          | Ok (th', h') => run rest (<[i := th']> pool) h'
          | Panic msg => Panic msg
          end
      end
  end.

End Model.

(** ** The vocabulary of the properties *)

Section Vocabulary.

Context {sub : Substrate} {C : Collaborators}.

(** The instance as the binder, [SetName] and the persistence controller
    leave it, and the calls that get it there. *)
Definition bound (t : TController) (v : Inst) : Inst :=
  match binder t with Some bd => handle bd v | None => v end.

Definition restored (t : TController) (v : Inst) : Inst :=
  match persistenceController t with Some pc => persistence_Handle pc v | None => v end.

Definition prepared (t : TController) (elem : TypeDecl) : Inst :=
  restored t (SetName (base elem) (Name t) (bound t (zero elem))).

Definition whenPresent {A : Type} (o : option A) (ev : Event) : list Event :=
  match o with Some _ => [ev] | None => [] end.

Definition preparation (t : TController) (c : Ptr) : list Event :=
  whenPresent (binder t) (EvBinderHandle c)
  ++ [EvSetName c (Name t)]
  ++ whenPresent (persistenceController t) (EvPersistenceHandle c).

Definition propagated (t : TController) (x : context_Context) (v : Inst) : context_Context :=
  match modelController t with Some mc => model_Handle mc x v | None => x end.

(** The request and the heap a handler returns, given the calls [evs] it
    made after the preparation, the context [x] and the instance [v]. *)
Definition served (t : TController) (elem : TypeDecl) (r : Request) (h : Heap)
    (evs : list Event) (x : context_Context) (v : Inst) : Request * Heap :=
  ({| ctx := x;
      trace := trace r ++ preparation t (length h) ++ evs;
      allocs := allocs r ++ [(length h, zero elem)] |},
   h ++ [v]).

(** A summary of one run of the handler of [m], case by case; it is proved
    equal to the handler [HandlerOf] builds in [HandlerOf_lifecycle]. *)
Definition lifecycle (t : TController) (elem : TypeDecl) (m : MethodFunc)
    (r : Request) (h : Heap) : Result (Request * Heap) :=
  let c := length h in
  let began := BeginRequest (base elem) (ctx r) (prepared t elem) in
  if IsStopped (ctx r) then Ok (served t elem r h [] (ctx r) (prepared t elem))
  else if IsStopped began.1 then Ok (served t elem r h [EvBeginRequest c] began.1 began.2)
  else
    match Value_Method elem (Index m) with
    | None => Panic methodIndexOutOfRange
    | Some f =>
        match MethodCall m with
        | None => Panic nilDereference
        | Some call =>
            let handled := call f began.1 began.2 in
            let ended :=
              EndRequest (base elem) (propagated t handled.1 handled.2) handled.2 in
            Ok (served t elem r h
                  ([EvBeginRequest c; EvMethodCall (Index m) c]
                   ++ whenPresent (modelController t) (EvModelHandle c)
                   ++ [EvEndRequest c])
                  ended.1 ended.2)
        end
    end.

(** The stages of the lifecycle a call belongs to. *)
Definition isBeginRequest (ev : Event) : bool :=
  match ev with EvBeginRequest _ => true | _ => false end.
Definition isMethodCall (ev : Event) : bool :=
  match ev with EvMethodCall _ _ => true | _ => false end.
Definition isModelHandle (ev : Event) : bool :=
  match ev with EvModelHandle _ => true | _ => false end.
Definition isEndRequest (ev : Event) : bool :=
  match ev with EvEndRequest _ => true | _ => false end.

(** The calls of a trace without the pointers they were made on. *)
Inductive Stage : Type :=
| BinderHandle | NameSet | PersistenceHandle | Begin | Method (index : Z)
| ModelHandle | End_.

Definition stageOf (ev : Event) : Stage :=
  match ev with
  | EvBinderHandle _ => BinderHandle
  | EvSetName _ _ => NameSet
  | EvPersistenceHandle _ => PersistenceHandle
  | EvBeginRequest _ => Begin
  | EvMethodCall i _ => Method i
  | EvModelHandle _ => ModelHandle
  | EvEndRequest _ => End_
  end.

(** [ran stage r r']: between the requests [r] and [r'] a call of that stage
    was made. *)
Definition ran (stage : Event -> bool) (r r' : Request) : bool :=
  existsb stage (drop (length (trace r)) (trace r')).

(** A descriptor is well formed for [elem] when its index names a method of
    [*elem] and its adapter is not nil; it is malformed otherwise. *)
Definition wellFormed (elem : TypeDecl) (m : MethodFunc) : bool :=
  match Value_Method elem (Index m), MethodCall m with
  | Some _, Some _ => true
  | _, _ => false
  end.

Definition malformed (elem : TypeDecl) (m : MethodFunc) : bool := negb (wellFormed elem m).

(** A handler-build failure: [HandlerOf] returns the nil handler. *)
Definition buildFails (t : TController) (m : MethodFunc) : bool :=
  match HandlerOf t m with Ok None => true | _ => false end.

Definition buildFailures (t : TController) (methods : list MethodFunc) : nat :=
  length (filter (fun m => buildFails t m = true) methods).

(** The middleware handlers of the binder, none when there is no binder. *)
Definition binderMiddleware (t : TController) : list context_Handler :=
  match binder t with Some bd => middleware bd | None => [] end.

(** The body of the closure [HandlerOf t m] returns when [t.Type] is
    [*elem] (lemma [HandlerOf_Some]). *)
Definition bodyOf (t : TController) (elem : TypeDecl) (m : MethodFunc) : Prog :=
  handlerBody elem (Name t)
    (bool_decide (persistenceController t <> None))
    (bool_decide (modelController t <> None))
    (MethodCall m) m.

(** The call that registers the method [m] of a descriptor whose type is
    [*elem]: its path, its verb, and the middleware [mw] followed by its
    handler. *)
Definition routeOf (t : TController) (elem : TypeDecl) (mw : list context_Handler)
    (m : MethodFunc) : RouteCall :=
  {| relPath := RelPath m;
     httpMethod := HTTPMethod m;
     handlers := mw ++ [Some (func t (bodyOf t elem m))] |}.

(** The debug line written after the registration of [m]. *)
Definition mapsLine (t : TController) (m : MethodFunc) : LogEntry :=
  DebugMaps (FullName t) (HTTPMethod m) (RelPath m) (Index m) (MName m).

(** The error line written when the resolver reports an error. *)
Definition resolveLine (t : TController) : list LogEntry :=
  match (methodfunc_Resolve (Typ t)).2 with
  | Some e => [ErrorResolve (FullName t) e]
  | None => []
  end.

(** The host router after the callback was called with [rcs], in order. *)
Definition registered (registerFunc : RegisterFunc) (rcs : list RouteCall) (hst : Host) : Host :=
  foldl (fun hst rc => registerFunc (relPath rc) (httpMethod rc) (handlers rc) hst) hst rcs.

Definition isWarnNilHandler (e : LogEntry) : bool :=
  match e with WarnNilHandler _ _ => true | _ => false end.

(** A template provides the capabilities of [BaseController] through its
    dynamic type; the nil interface value has none. *)
Definition providesBaseController (b : BaseValue) : bool :=
  match reflect_TypeOf b with Some _ => true | None => false end.

(** A template one can take a representative value of: neither nil nor a
    nil pointer. *)
Definition hasValue (b : BaseValue) : bool :=
  match reflect_Indirect (reflect_ValueOf b) with ZeroValue => false | _ => true end.

(** [ActivateController] returns a non-nil error. *)
Definition returnsError (res : Result (TController * option string * Registry)) : Prop :=
  exists t e w, res = Ok (t, Some e, w).



(** No assignment to the captured descriptor occurs in a program. *)
Fixpoint noAssign (p : Prog) : Prop :=
  match p with
  | Ret | Throw _ => True
  | New _ k => forall c, noAssign (k c)
  | Captured k => forall t, noAssign (k t)
  | AssignCaptured _ _ => False
  | Stopped k => forall b, noAssign (k b)
  | Call _ _ k => noAssign k
  end.






End Vocabulary.

(** ** A concrete substrate and concrete controllers

    The context of the examples holds the stopped flag, the lines written
    to the response and the view data; an instance has a name, a counter
    (the persistent field), a bound service and a model field. *)

Module Ex.

Record Context : Type := {
  stopped : bool;
  written : list string;
  viewData : list Z
}.

Record Controller : Type := {
  name : string;
  counter : Z;
  service : Z
}.

#[global] Instance substrate : Substrate := {|
  context_Context := Context;
  IsStopped := stopped;
  Inst := Controller;
  BindValue := Z;
  Host := list (string * string)
|}.

Definition write (line : string) (x : Context) : Context :=
  {| stopped := stopped x; written := written x ++ [line]; viewData := viewData x |}.

Definition StopExecution (x : Context) : Context :=
  {| stopped := true; written := written x; viewData := viewData x |}.

Definition bump (v : Controller) : Controller :=
  {| name := name v; counter := counter v + 1; service := service v |}.

Definition setName (n : string) (v : Controller) : Controller :=
  {| name := n; counter := counter v; service := service v |}.

(** The embedded base controller: [BeginRequest] and [EndRequest] write a
    line each. *)
Definition plainBase : BaseController := {|
  SetName := setName;
  BeginRequest := fun x v => (write "begin" x, v);
  EndRequest := fun x v => (write "end" x, v)
|}.

(** A base controller whose [BeginRequest] stops the execution. *)
Definition guardedBase : BaseController := {|
  SetName := setName;
  BeginRequest := fun x v => (StopExecution (write "denied" x), v);
  EndRequest := fun x v => (write "end" x, v)
|}.

Definition Get : Hook := fun x v => (write "get" x, bump v).
Definition Post : Hook := fun x v => (write "post" x, bump v).

Definition zeroController : Controller := {| name := ""; counter := 0; service := 0 |}.

Definition Items : TypeDecl := {|
  PkgPath := "github.com/example/shop/items";
  TypeName := "Items";
  zero := zeroController;
  base := plainBase;
  Methods := [Get; Post]
|}.

Definition Guarded : TypeDecl := {|
  PkgPath := "main";
  TypeName := "Guarded";
  zero := zeroController;
  base := guardedBase;
  Methods := [Get; Post]
|}.

Definition plainCall : Hook -> Hook := fun f => f.

Definition getFunc : MethodFunc := {|
  MName := "Get"; HTTPMethod := "GET"; Index := 0; RelPath := "/";
  MethodCall := Some plainCall
|}.

Definition postFunc : MethodFunc := {|
  MName := "Post"; HTTPMethod := "POST"; Index := 1; RelPath := "/";
  MethodCall := Some plainCall
|}.

(** Two malformed descriptors: an index outside the method set, and a nil
    adapter. *)
Definition outOfRangeFunc : MethodFunc := {|
  MName := "Put"; HTTPMethod := "PUT"; Index := 7; RelPath := "/";
  MethodCall := Some plainCall
|}.

Definition nilCallFunc : MethodFunc := {|
  MName := "Delete"; HTTPMethod := "DELETE"; Index := 0; RelPath := "/";
  MethodCall := None
|}.

(** A middleware handler contributed by the binder. *)
Definition logMiddleware : HandlerFunc :=
  fun r h => Ok ({| ctx := write "mw" (ctx r); trace := trace r; allocs := allocs r |}, h).

(** The binder injects the first bind value as the service; there is none
    without bind values. *)
Definition exBinder (bindValues : list Z) : option Binder :=
  match bindValues with
  | [] => None
  | s :: _ =>
      Some {| fields := ["service"];
              middleware := [Some logMiddleware];
              handle := fun v => {| name := name v; counter := counter v; service := s |} |}
  end.

(** The model controller publishes the counter as view data. *)
Definition exModel : model_Controller := {|
  model_Handle := fun x v =>
    {| stopped := stopped x; written := written x; viewData := viewData x ++ [counter v] |}
|}.

(** The persistence controller carries the counter of the template. *)
Definition exPersistence (val : reflect_Value) : option persistence_Controller :=
  match val with
  | VStruct _ tmpl =>
      Some {| persistence_Handle := fun v =>
                {| name := name v; counter := counter tmpl; service := service v |} |}
  | _ => None
  end.

(** The resolver finds [Get] and [Post], and reports a method it could not
    parse. *)
#[global] Instance collaborators : Collaborators := {|
  newBinder := fun _ bindValues => exBinder bindValues;
  model_Load := fun _ => Some exModel;
  persistence_Load := fun _ val => exPersistence val;
  methodfunc_Resolve := fun _ => ([getFunc; postFunc], Some "invalid method name: Helper");
  CallOnActivate := fun _ bindValues _ w => (bindValues, w)
|}.

Definition recordRoute : RegisterFunc :=
  fun path verb _ routes => routes ++ [(verb, path)].

Definition emptyRegistry : Registry := {| log := []; calls := []; host := [] |}.

Definition template : Controller := {| name := ""; counter := 5; service := 0 |}.

(** Descriptors built by hand: with every collaborator, and with none. *)
Definition fullT (d : TypeDecl) : TController := {|
  Name := TypeName d;
  FullName := fullNameOf (PkgPath d) (TypeName d);
  Typ := TPtr d;
  Value := VStruct d template;
  binder := exBinder [42%Z];
  modelController := Some exModel;
  persistenceController := exPersistence (VStruct d template)
|}.

Definition bareT (d : TypeDecl) : TController := {|
  Name := TypeName d;
  FullName := fullNameOf (PkgPath d) (TypeName d);
  Typ := TPtr d;
  Value := VStruct d template;
  binder := None;
  modelController := None;
  persistenceController := None
|}.

Definition freshContext : Context := {| stopped := false; written := []; viewData := [] |}.
Definition stoppedContext : Context := {| stopped := true; written := ["mw"]; viewData := [] |}.

(** Run the handler of a descriptor and a method on a new request. *)
Definition serve (t : TController) (m : MethodFunc) (x : Context) (h : Heap)
    : Result (Request * Heap) :=
  match HandlerOf t m with
  | Ok (Some hf) => hf (newRequest x) h
  | Ok None => Panic nilDereference
  | Panic msg => Panic msg
  end.

(** The closure [HandlerOf] returns for a descriptor of type [*d]. *)
Definition closure (t : TController) (d : TypeDecl) (m : MethodFunc) : HandlerFunc :=
  func t (bodyOf t d m).

(** A resolver that also returns the two malformed descriptors. *)
Definition carelessCollaborators : Collaborators := {|
  newBinder := fun _ bindValues => exBinder bindValues;
  model_Load := fun _ => Some exModel;
  persistence_Load := fun _ val => exPersistence val;
  methodfunc_Resolve := fun _ => ([getFunc; outOfRangeFunc; nilCallFunc; postFunc], None);
  CallOnActivate := fun _ bindValues _ w => (bindValues, w)
|}.

(** Three requests to [GET /] of [Items] and a schedule that interleaves
    their workers: the second request is served first, the third is not
    finished. *)
Definition threeContexts : list context_Context :=
  [freshContext; freshContext; stoppedContext].

Definition threeRequests : list Thread :=
  spawn (fullT Items) (bodyOf (fullT Items) Items getFunc) <$> threeContexts.

Definition schedule : list nat :=
  [1; 1; 0; 1; 0; 0; 2; 1; 1; 0; 1; 1; 0; 1; 2; 1; 1; 0; 1; 1; 1; 1; 0; 0; 0;
   0; 0; 0; 0; 2; 0; 0; 5].

Definition afterSchedule : list Thread * list Controller :=
  match run schedule threeRequests [] with
  | Ok res => res
  | Panic _ => ([], [])
  end.

(** A resolver that finds no method, and a pre-activation hook that puts
    a bind value in front of the others and registers a route of its own. *)
Definition silentCollaborators : Collaborators := {|
  newBinder := fun _ bindValues => exBinder bindValues;
  model_Load := fun _ => Some exModel;
  persistence_Load := fun _ val => exPersistence val;
  methodfunc_Resolve := fun _ => ([], Some "no exported method");
  CallOnActivate := fun _ bindValues _ w => (bindValues, w)
|}.

Definition hookedCollaborators : Collaborators := {|
  newBinder := fun _ bindValues => exBinder bindValues;
  model_Load := fun _ => Some exModel;
  persistence_Load := fun _ val => exPersistence val;
  methodfunc_Resolve := fun _ => ([getFunc; postFunc], None);
  CallOnActivate := fun _ bindValues registerFunc w =>
    (9%Z :: bindValues, callRegisterFunc registerFunc "/custom" "GET" [] w)
|}.


(** A [GET /] served next to the template. *)
Definition servedGet : Request * list Controller :=
  match serve (fullT Items) getFunc freshContext [template] with
  | Ok res => res
  | Panic _ => (newRequest freshContext, [])
  end.


(** What [ActivateController] returns for a pointer to the template. *)
Definition activatedItems : TController * option string * Registry :=
  match ActivateController (PointerTo Items (Some template)) [7%Z] emptyRegistry with
  | Ok res => res
  | Panic _ => (bareT Items, None, emptyRegistry)
  end.

End Ex.

(** * Properties *)

Section Lifecycle.

Context {sub : Substrate}.

Implicit Types (p q : Prog) (f : Frame) (h : Heap) (t : TController) (r : Request).

(** ** The two semantics of a program *)

Lemma exec_New d k f h :
  exec (New d k) f h =
  exec (k (length h))
       {| captured := captured f;
          req := {| ctx := ctx (req f); trace := trace (req f);
                    allocs := allocs (req f) ++ [(length h, zero d)] |} |}
       (h ++ [zero d]).
Proof. reflexivity. Qed.

Lemma exec_Ret f h : exec Ret f h = Ok (f, h).
Proof. reflexivity. Qed.

Lemma exec_Captured k f h : exec (Captured k) f h = exec (k (captured f)) f h.
Proof. reflexivity. Qed.

Lemma exec_Stopped k f h :
  exec (Stopped k) f h = exec (k (IsStopped (ctx (req f)))) f h.
Proof. reflexivity. Qed.

Lemma exec_Call ev g k f h v :
  h !! receiver ev = Some v ->
  exec (Call ev g k) f h =
  exec k
       {| captured := captured f;
          req := {| ctx := (g (ctx (req f)) v).1; trace := trace (req f) ++ [ev];
                    allocs := allocs (req f) |} |}
       (<[receiver ev := (g (ctx (req f)) v).2]> h).
Proof. intros Hv. cbn [exec step]. rewrite Hv. reflexivity. Qed.

Lemma exec_seq p q f h :
  exec (seq p q) f h =
  match exec p f h with
  | Ok (f', h') => exec q f' h'
  | Panic msg => Panic msg
  end.
Proof.
  revert f h. induction p as [| |d k IH|k IH|t k IH|k IH|ev g k IH]; intros f h.
  - reflexivity.
  - reflexivity.
  - cbn [seq]. rewrite !exec_New. apply IH.
  - cbn [seq]. rewrite !exec_Captured. apply IH.
  - cbn [seq exec step]. apply IH.
  - cbn [seq]. rewrite !exec_Stopped. apply IH.
  - cbn [seq exec step]. destruct (h !! receiver ev); [apply IH | reflexivity].
Qed.

Lemma bool_decide_ne_None {A : Type} (o : option A) :
  bool_decide (o <> None) = match o with Some _ => true | None => false end.
Proof.
  destruct o; [by rewrite bool_decide_true | by rewrite bool_decide_false by auto].
Qed.

(** The instance allocated last is the last cell of the heap. *)
Lemma heap_lookup_last h (v : Inst) : (h ++ [v]) !! length h = Some v.
Proof. by rewrite list_lookup_middle. Qed.

Lemma heap_insert_last h (v v' : Inst) : <[length h := v']> (h ++ [v]) = h ++ [v'].
Proof.
  rewrite insert_app_r_alt; [|lia]. by rewrite Nat.sub_diag.
Qed.

(** ** The handler, case by case *)

Lemma exec_call_own ev g f h v :
  receiver ev = length h ->
  exec (Call ev g Ret) f (h ++ [v]) =
  Ok ({| captured := captured f;
         req := {| ctx := (g (ctx (req f)) v).1; trace := trace (req f) ++ [ev];
                   allocs := allocs (req f) |} |},
      h ++ [(g (ctx (req f)) v).2]).
Proof.
  intros Hc. erewrite exec_Call by (rewrite Hc; apply heap_lookup_last).
  rewrite Hc, heap_insert_last. reflexivity.
Qed.

Lemma HandlerOf_Some t elem m :
  Typ t = TPtr elem ->
  HandlerOf t m = Ok (Some (func t (bodyOf t elem m))).
Proof. intros Ht. unfold HandlerOf. rewrite Ht. reflexivity. Qed.

(** One step of the symbolic run of a handler body. *)
Ltac run_step :=
  first
    [ rewrite exec_seq
    | rewrite exec_call_own by reflexivity
    | rewrite exec_Ret
    | rewrite exec_Captured
    | rewrite exec_Stopped ];
  cbn [captured req ctx trace allocs fst snd].

(** The end of a symbolic run: both traces are the same list. *)
Ltac run_done :=
  cbn [exec req]; rewrite <- ?app_assoc; cbn [app]; reflexivity.

Lemma handlerBody_lifecycle t elem m r h :
  func t (bodyOf t elem m) r h = lifecycle t elem m r h.
Proof.
  unfold func, bodyOf, handlerBody, lifecycle, served, preparation, prepared, bound,
    restored, propagated, whenPresent, callMethod, reflect_New, ctx_IsStopped,
    binder_handle, b_SetName, persistenceController_Handle, b_BeginRequest,
    b_EndRequest, modelController_Handle, onInstance.
  rewrite exec_New.
  rewrite !bool_decide_ne_None.
  destruct (binder t) as [bd|] eqn:Eb;
  destruct (persistenceController t) as [pc|] eqn:Ep;
  destruct (modelController t) as [mc|] eqn:Em.
  all: repeat (run_step; rewrite ?Eb, ?Ep, ?Em).
  all: destruct (IsStopped (ctx r)); [run_done|].
  all: repeat (run_step; rewrite ?Eb, ?Ep, ?Em).
  all: match goal with |- context [IsStopped ?x] => destruct (IsStopped x) end;
    [run_done|].
  all: destruct (Value_Method elem (Index m)) as [g|]; [|reflexivity].
  all: destruct (MethodCall m) as [call|]; [|reflexivity].
  all: repeat (run_step; rewrite ?Eb, ?Ep, ?Em).
  all: run_done.
Qed.

Lemma HandlerOf_inv t m hf :
  HandlerOf t m = Ok (Some hf) ->
  exists elem, Typ t = TPtr elem /\ forall r h, hf r h = lifecycle t elem m r h.
Proof.
  unfold HandlerOf. destruct (Typ t) as [d|d] eqn:Ht; cbn [Type_Elem rbind]; [done|].
  intros [= <-]. exists d. split; [done|]. intros r h. apply handlerBody_lifecycle.
Qed.

Lemma HandlerOf_lifecycle t elem m hf :
  Typ t = TPtr elem ->
  HandlerOf t m = Ok (Some hf) ->
  forall r h, hf r h = lifecycle t elem m r h.
Proof.
  intros Ht Hh. destruct (HandlerOf_inv _ _ Hh) as (d & Hd & Hrun).
  rewrite Ht in Hd. by injection Hd as <-.
Qed.

Lemma ran_after (stage : Event -> bool) r r' evs :
  trace r' = trace r ++ evs ->
  ran stage r r' = existsb stage evs.
Proof. intros Htr. unfold ran. by rewrite Htr, drop_app_length. Qed.

Lemma preparation_stages t c (stage : Event -> bool) evs :
  stage (EvBinderHandle c) = false ->
  stage (EvSetName c (Name t)) = false ->
  stage (EvPersistenceHandle c) = false ->
  existsb stage (preparation t c ++ evs) = existsb stage evs.
Proof.
  intros H1 H2 H3. unfold preparation, whenPresent.
  rewrite !existsb_app.
  destruct (binder t), (persistenceController t); cbn [existsb];
    by rewrite ?H1, ?H2, ?H3.
Qed.

(** Two requests served one after the other get different instances. *)
Lemma lifecycle_allocates t elem m r h r' h' :
  lifecycle t elem m r h = Ok (r', h') ->
  allocs r' = allocs r ++ [(length h, zero elem)] /\ length h' = S (length h).
Proof.
  unfold lifecycle, served. intros Hrun.
  repeat match type of Hrun with
         | context [if ?b then _ else _] => destruct b
         | context [match ?o with Some _ => _ | None => _ end] => destruct o
         end;
    try discriminate Hrun; injection Hrun as <- <-;
    (split; [reflexivity|rewrite length_app; cbn; lia]).
Qed.

Lemma sequential_requests_get_distinct_instances t m hf r1 r2 h r1' h1 r2' h2 :
  HandlerOf t m = Ok (Some hf) ->
  hf r1 h = Ok (r1', h1) ->
  hf r2 h1 = Ok (r2', h2) ->
  exists elem c1 c2,
    allocs r1' = allocs r1 ++ [(c1, zero elem)] /\
    allocs r2' = allocs r2 ++ [(c2, zero elem)] /\
    h !! c1 = None /\ h1 !! c2 = None /\ c1 <> c2.
Proof.
  intros Hh H1 H2. destruct (HandlerOf_inv _ _ Hh) as (elem & _ & Hrun).
  rewrite Hrun in H1, H2.
  destruct (lifecycle_allocates _ _ _ _ _ H1) as [Ha1 Hl1].
  destruct (lifecycle_allocates _ _ _ _ _ H2) as [Ha2 Hl2].
  exists elem, (length h), (length h1). repeat split; try done.
  - by apply lookup_ge_None_2.
  - by apply lookup_ge_None_2.
  - lia.
Qed.

(** ** The lifecycle of a request *)

(** C2. A request that is already stopped when the handler is entered runs
    none of [BeginRequest], the user method, the model propagation and
    [EndRequest]: the handler returns with the context as it found it. *)
Theorem stopped_before_BeginRequest_runs_no_stage t m hf r h :
  HandlerOf t m = Ok (Some hf) ->
  IsStopped (ctx r) = true ->
  exists r' h',
    hf r h = Ok (r', h') /\
    ran isBeginRequest r r' = false /\
    ran isMethodCall r r' = false /\
    ran isModelHandle r r' = false /\
    ran isEndRequest r r' = false /\
    ctx r' = ctx r.
Proof.
  intros Hh Hs. destruct (HandlerOf_inv _ _ Hh) as (elem & _ & Hrun).
  eexists _, _. rewrite Hrun. unfold lifecycle, served. rewrite Hs.
  split; [reflexivity|].
  repeat split;
    first [ reflexivity
          | by (erewrite ran_after by reflexivity; rewrite preparation_stages) ].
Qed.

(** C10. A request that is already stopped when the handler is entered
    still gets its instance: the handler allocates a cell that was not in
    the heap, holding the zero value of the controller type, applies the
    binder when there is one, calls [SetName] with the display name and
    restores the persistent fields when there is a persistence controller;
    it makes these calls and no other, leaves the context alone and
    returns. *)
Theorem stopped_on_entry_still_prepares_the_instance t m hf r h :
  HandlerOf t m = Ok (Some hf) ->
  IsStopped (ctx r) = true ->
  exists elem,
    Typ t = TPtr elem /\
    h !! length h = None /\
    hf r h =
    Ok ({| ctx := ctx r;
           trace := trace r
                    ++ whenPresent (binder t) (EvBinderHandle (length h))
                    ++ [EvSetName (length h) (Name t)]
                    ++ whenPresent (persistenceController t) (EvPersistenceHandle (length h));
           allocs := allocs r ++ [(length h, zero elem)] |},
        h ++ [restored t (SetName (base elem) (Name t) (bound t (zero elem)))]).
Proof.
  intros Hh Hs. destruct (HandlerOf_inv _ _ Hh) as (elem & Ht & Hrun).
  exists elem. split; [done|]. split; [by apply lookup_ge_None_2|].
  rewrite Hrun. unfold lifecycle. rewrite Hs.
  unfold served, preparation, prepared. by rewrite app_nil_r.
Qed.

(** C3. When the request is not stopped on entry and [BeginRequest] does
    not stop it, the handler of a well-formed method performs exactly this
    sequence on the instance it allocated, each stage receiving what the
    stage before it left: the binder injects the bound fields into the
    zero value (when there is a binder), [SetName] sets the display name,
    the persistence controller restores the persistent fields (when there
    is one), [BeginRequest] runs, the resolved user method runs through
    its adapter, the model controller propagates the instance into the
    context (when there is one), [EndRequest] runs. The handler returns
    the context and the instance [EndRequest] left, and the record of
    these calls in this order. *)
Theorem unobstructed_order t m hf r h elem g call :
  HandlerOf t m = Ok (Some hf) ->
  Typ t = TPtr elem ->
  Value_Method elem (Index m) = Some g ->
  MethodCall m = Some call ->
  IsStopped (ctx r) = false ->
  IsStopped (BeginRequest (base elem) (ctx r) (prepared t elem)).1 = false ->
  let c := length h in
  let injected := bound t (zero elem) in
  let named := SetName (base elem) (Name t) injected in
  let persisted := restored t named in
  let began := BeginRequest (base elem) (ctx r) persisted in
  let handled := call g began.1 began.2 in
  let shown := propagated t handled.1 handled.2 in
  let ended := EndRequest (base elem) shown handled.2 in
  hf r h =
  Ok ({| ctx := ended.1;
         trace :=
           trace r
           ++ whenPresent (binder t) (EvBinderHandle c)
           ++ [EvSetName c (Name t)]
           ++ whenPresent (persistenceController t) (EvPersistenceHandle c)
           ++ [EvBeginRequest c; EvMethodCall (Index m) c]
           ++ whenPresent (modelController t) (EvModelHandle c)
           ++ [EvEndRequest c];
         allocs := allocs r ++ [(c, zero elem)] |},
      h ++ [ended.2]).
Proof.
  intros Hh Ht Hg Hcall Hs Hb. cbv zeta.
  rewrite (@HandlerOf_lifecycle t elem m hf Ht Hh). unfold lifecycle.
  rewrite Hs, Hb, Hg, Hcall.
  unfold served, preparation, prepared.
  by rewrite <- !app_assoc.
Qed.


End Lifecycle.

(** ** Workers sharing the heap *)

Section Workers.

Context {sub : Substrate}.

Implicit Types (p q : Prog) (f : Frame) (h : Heap) (t : TController)
  (th : Thread) (pool : list Thread).

(** A property of the pool and the heap that every step of every worker
    keeps holds after any schedule. *)
Lemma run_invariant (I : list Thread -> Heap -> Prop) :
  (forall pool h i th th' h',
      I pool h -> pool !! i = Some th -> advance th h = Ok (th', h') ->
      I (<[i := th']> pool) h') ->
  forall schedule pool h pool' h',
    I pool h -> run schedule pool h = Ok (pool', h') -> I pool' h'.
Proof.
  intros Hstep schedule.
  induction schedule as [|i rest IH]; intros pool h pool' h' HI Hrun; cbn [run] in Hrun.
  - by injection Hrun as <- <-.
  - destruct (pool !! i) as [th|] eqn:Hi; [|by eapply IH].
    destruct (advance th h) as [[th' h1]|msg] eqn:Hadv; [|done].
    eapply IH; [|exact Hrun]. by eapply Hstep.
Qed.

(** A worker alone in the pool follows [exec]. *)
Lemma exec_run p f h f' h' :
  exec p f h = Ok (f', h') ->
  exists n,
    run (replicate n 0) [{| code := p; frame := f |}] h
    = Ok ([{| code := Ret; frame := f' |}], h').
Proof.
  revert f h. induction p as [| |d k IH|k IH|t k IH|k IH|ev g k IH]; intros f h Hex.
  - exists 0. cbn in Hex |- *. by injection Hex as <- <-.
  - done.
  - rewrite exec_New in Hex. destruct (IH _ _ _ Hex) as [n Hn].
    exists (S n). exact Hn.
  - rewrite exec_Captured in Hex. destruct (IH _ _ _ Hex) as [n Hn].
    exists (S n). exact Hn.
  - cbn [exec step] in Hex. destruct (IH _ _ Hex) as [n Hn].
    exists (S n). exact Hn.
  - rewrite exec_Stopped in Hex. destruct (IH _ _ _ Hex) as [n Hn].
    exists (S n). exact Hn.
  - cbn [exec step] in Hex.
    destruct (h !! receiver ev) as [v|] eqn:Hv; [|done].
    destruct (IH _ _ Hex) as [n Hn].
    exists (S n). cbn [replicate run lookup list_lookup].
    unfold advance. cbn [code frame step]. rewrite Hv. exact Hn.
Qed.

(** *** The captured descriptor *)

Lemma noAssign_seq p q : noAssign p -> noAssign q -> noAssign (seq p q).
Proof.
  intros Hp Hq. induction p as [| |d k IH|k IH|t k IH|k IH|ev g k IH];
    cbn [seq noAssign] in *; auto.
Qed.

Lemma bodyOf_noAssign t elem m : noAssign (bodyOf t elem m).
Proof.
  unfold bodyOf, handlerBody, reflect_New, ctx_IsStopped, callMethod.
  cbn [noAssign]. intros c.
  repeat first
    [ apply noAssign_seq
    | progress cbn [noAssign]
    | intros ?
    | exact I
    | match goal with |- noAssign (match ?x with _ => _ end) => destruct x end ].
Qed.

Lemma advance_noAssign th h th' h' :
  noAssign (code th) ->
  advance th h = Ok (th', h') ->
  captured (frame th') = captured (frame th) /\ noAssign (code th').
Proof.
  destruct th as [p f]. unfold advance. cbn [code frame].
  destruct p as [| |d k|k|t k|k|ev g k]; cbn [step noAssign]; intros Hp Hadv;
    try (injection Hadv as <- <-; cbn [code frame captured]; by auto).
  - done.
  - destruct (h !! receiver ev); [|done].
    injection Hadv as <- <-; cbn [code frame captured]; by auto.
Qed.

(** C9. Whatever the schedule of the workers that run the handler of a
    method, each of them finds and leaves the descriptor it captured as
    [HandlerOf] received it: [Name], [FullName], [Type], [Value], [binder],
    [modelController] and [persistenceController] are those of [t] at every
    step of every request. *)
Theorem handler_leaves_descriptor_unchanged t m elem xs schedule h pool h' :
  Typ t = TPtr elem ->
  run schedule (spawn t (bodyOf t elem m) <$> xs) h = Ok (pool, h') ->
  forall th, th ∈ pool -> captured (frame th) = t.
Proof.
  intros _ Hrun th Hth.
  pose (I := fun (pool : list Thread) (_ : Heap) =>
               Forall (fun th => captured (frame th) = t /\ noAssign (code th)) pool).
  assert (HI : I pool h').
  { eapply (run_invariant I); [| |exact Hrun].
    - clear. intros pool h i th th' h' HI Hi Hadv. unfold I in *.
      apply Forall_insert; [done|].
      rewrite Forall_lookup in HI. destruct (HI _ _ Hi) as [Hc Hn].
      destruct (advance_noAssign _ _ Hn Hadv) as [Hc' Hn']. split; congruence.
    - unfold I. apply Forall_fmap, Forall_true. intros x. cbn.
      split; [done|apply bodyOf_noAssign]. }
  unfold I in HI. rewrite Forall_forall in HI. by apply HI.
Qed.

(** *** The instances *)












End Workers.

(** ** Registration *)

Section Registration.

Context {sub : Substrate} {C : Collaborators}.

Implicit Types (t : TController) (m : MethodFunc) (w : Registry)
  (registerFunc : RegisterFunc).

(** The loop registers every method it is given, in order, and writes one
    debug line for each. *)
Lemma registerEach_spec t elem registerFunc mw methods w :
  Typ t = TPtr elem ->
  registerEach t registerFunc mw methods w =
  Ok {| log := log w ++ map (mapsLine t) methods;
        calls := calls w ++ map (routeOf t elem mw) methods;
        host := registered registerFunc (map (routeOf t elem mw) methods) (host w) |}.
Proof.
  intros Ht. revert w.
  induction methods as [|m rest IH]; intros w.
  - cbn [registerEach map registered foldl]. rewrite !app_nil_r. by destruct w.
  - cbn [registerEach]. rewrite (@HandlerOf_Some _ t elem m Ht). cbn [rbind].
    rewrite IH. cbn [golog callRegisterFunc log calls host map].
    rewrite <- !app_assoc. reflexivity.
Qed.

Lemma resolved_middleware t :
  match binder t with
  | Some bd => if bool_decide (0 < length (middleware bd)) then middleware bd else []
  | None => []
  end = binderMiddleware t.
Proof.
  unfold binderMiddleware. destruct (binder t) as [bd|]; [|done].
  destruct (middleware bd) as [|x l]; [done|].
  rewrite bool_decide_true; [done|cbn; lia].
Qed.

Lemma buildFailures_none t elem methods :
  Typ t = TPtr elem -> buildFailures t methods = 0.
Proof.
  intros Ht. unfold buildFailures.
  induction methods as [|m rest IH]; [done|].
  rewrite filter_cons_False; [exact IH|].
  unfold buildFails. by rewrite (@HandlerOf_Some _ t elem m Ht).
Qed.

(** What [RegisterMethodHandlers] does to the registry. *)
Lemma RegisterMethodHandlers_spec t elem registerFunc w :
  Typ t = TPtr elem ->
  RegisterMethodHandlers t registerFunc w =
  Ok {| log := log w ++ resolveLine t ++ map (mapsLine t) (methodfunc_Resolve (Typ t)).1;
        calls := calls w
                 ++ map (routeOf t elem (binderMiddleware t)) (methodfunc_Resolve (Typ t)).1;
        host := registered registerFunc
                  (map (routeOf t elem (binderMiddleware t)) (methodfunc_Resolve (Typ t)).1)
                  (host w) |}.
Proof.
  intros Ht. unfold RegisterMethodHandlers, resolveLine.
  rewrite resolved_middleware.
  destruct (methodfunc_Resolve (Typ t)) as [methods [e|]]; cbn [fst snd];
    rewrite (@registerEach_spec t elem _ _ _ _ Ht); cbn [golog log calls host].
  - by rewrite <- app_assoc.
  - reflexivity.
Qed.

(** C5. The callback is applied to the host router once for every
    resolved MethodDescriptor less those whose handler could not be built:
    the routes it is passed, in order, are as many as that, and the host
    router is what the callback makes of it on these routes. An error of
    the resolver is written to the log and the methods it returned are
    passed to the callback all the same. *)
Theorem routes_are_resolved_methods_less_build_failures t elem registerFunc w :
  Typ t = TPtr elem ->
  exists w',
    RegisterMethodHandlers t registerFunc w = Ok w' /\
    length (calls w') =
      length (calls w)
      + (length (methodfunc_Resolve (Typ t)).1
         - buildFailures t (methodfunc_Resolve (Typ t)).1) /\
    take (length (calls w)) (calls w') = calls w /\
    host w' = registered registerFunc (drop (length (calls w)) (calls w')) (host w) /\
    map relPath (drop (length (calls w)) (calls w'))
    = map RelPath (methodfunc_Resolve (Typ t)).1 /\
    map httpMethod (drop (length (calls w)) (calls w'))
    = map HTTPMethod (methodfunc_Resolve (Typ t)).1 /\
    (forall e, (methodfunc_Resolve (Typ t)).2 = Some e ->
       ErrorResolve (FullName t) e ∈ log w' /\
       map relPath (drop (length (calls w)) (calls w'))
       = map RelPath (methodfunc_Resolve (Typ t)).1).
Proof.
  intros Ht. eexists. split; [by apply RegisterMethodHandlers_spec|].
  cbn [calls log host]. rewrite drop_app_length, take_app_length, !map_map.
  split; [|repeat split].
  - rewrite (@buildFailures_none t elem _ Ht), length_app, length_map. lia.
  - unfold resolveLine. rewrite H. apply elem_of_app. right. apply list_elem_of_here.
Qed.

(** C8. For every resolved MethodDescriptor, in the order of the resolver,
    the callback is called with the relative path of the method, its HTTP
    verb, and the middleware handlers of the binder (none without a
    binder) followed by the handler [HandlerOf] built for that method. *)
Theorem each_method_is_registered_with_middleware_then_handler t elem registerFunc w :
  Typ t = TPtr elem ->
  exists w' hs,
    RegisterMethodHandlers t registerFunc w = Ok w' /\
    Forall2 (fun m hf => HandlerOf t m = Ok (Some hf)) (methodfunc_Resolve (Typ t)).1 hs /\
    calls w' =
      calls w
      ++ zip_with (fun m hf => {| relPath := RelPath m;
                                  httpMethod := HTTPMethod m;
                                  handlers := binderMiddleware t ++ [Some hf] |})
                  (methodfunc_Resolve (Typ t)).1 hs /\
    host w' = registered registerFunc (drop (length (calls w)) (calls w')) (host w).
Proof.
  intros Ht.
  exists {| log := log w ++ resolveLine t ++ map (mapsLine t) (methodfunc_Resolve (Typ t)).1;
            calls := calls w
                     ++ map (routeOf t elem (binderMiddleware t)) (methodfunc_Resolve (Typ t)).1;
            host := registered registerFunc
                      (map (routeOf t elem (binderMiddleware t)) (methodfunc_Resolve (Typ t)).1)
                      (host w) |},
         (map (fun m => func t (bodyOf t elem m)) (methodfunc_Resolve (Typ t)).1).
  split; [by apply RegisterMethodHandlers_spec|].
  cbn [calls host]. rewrite drop_app_length.
  generalize (methodfunc_Resolve (Typ t)).1. intros methods.
  split; [|split; [|reflexivity]].
  - induction methods as [|m rest IH]; cbn [map]; constructor;
      [by apply HandlerOf_Some|exact IH].
  - f_equal. induction methods as [|m rest IH]; [done|].
    cbn [map zip_with]. by rewrite <- IH.
Qed.

(** C6, as the code has it. [HandlerOf] makes no check of the
    MethodDescriptor: it yields a handler, never nil, for every descriptor,
    malformed or not. The branch of [RegisterMethodHandlers] that skips a
    nil handler with a warning is therefore not taken: no build failure is
    counted, no warning is written, and every resolved descriptor is
    registered. *)
Theorem HandlerOf_yields_a_handler_for_every_descriptor t elem m registerFunc w :
  Typ t = TPtr elem ->
  (exists hf, HandlerOf t m = Ok (Some hf)) /\
  buildFailures t (methodfunc_Resolve (Typ t)).1 = 0 /\
  exists w',
    RegisterMethodHandlers t registerFunc w = Ok w' /\
    map (fun rc => (relPath rc, httpMethod rc)) (drop (length (calls w)) (calls w'))
    = map (fun m => (RelPath m, HTTPMethod m)) (methodfunc_Resolve (Typ t)).1 /\
    filter (fun e => isWarnNilHandler e = true) (log w')
    = filter (fun e => isWarnNilHandler e = true) (log w).
Proof.
  intros Ht. split; [eexists; by apply HandlerOf_Some|].
  split; [by eapply buildFailures_none|].
  eexists. split; [by apply RegisterMethodHandlers_spec|].
  cbn [calls log]. split.
  - rewrite drop_app_length, map_map. reflexivity.
  - rewrite !filter_app.
    assert (H1 : filter (fun e => isWarnNilHandler e = true) (resolveLine t) = []).
    { unfold resolveLine. by destruct ((methodfunc_Resolve (Typ t)).2). }
    assert (H2 : forall ms,
               filter (fun e => isWarnNilHandler e = true) (map (mapsLine t) ms) = []).
    { induction ms as [|x ms IH]; [done|]. cbn [map].
      rewrite filter_cons_False; [exact IH|]. cbn. done. }
    by rewrite H1, H2, !app_nil_r.
Qed.

(** *** Activation *)

Lemma calls_binder_lines fullName (fs : list string) w :
  calls (foldl (fun w bf => golog (DebugBinderLoaded fullName bf) w) w fs) = calls w.
Proof. revert w. induction fs as [|x fs IH]; intros w; [done|]. cbn [foldl]. by rewrite IH. Qed.

(** [ActivateController] has no path that returns an error. *)
Lemma ActivateController_never_errs (b : BaseValue) (bindValues : list BindValue) w :
  ~ returnsError (ActivateController b bindValues w).
Proof.
  intros (t & e & w' & Heq). unfold ActivateController in Heq.
  destruct (reflect_TypeOf b) as [typ0|]; [|done].
  destruct (Value_Type (reflect_Indirect (reflect_ValueOf b))) as [vt|]; [|done].
  cbn [rbind] in Heq.
  destruct (Type_Elem _) as [elem|]; [|done].
  cbn [rbind] in Heq. by injection Heq.
Qed.

Lemma ActivateController_hasValue (b : BaseValue) (bindValues : list BindValue) w :
  hasValue b = true ->
  exists t w',
    ActivateController b bindValues w = Ok (t, None, w') /\
    (exists elem, Typ t = TPtr elem) /\
    calls w' = calls w.
Proof.
  unfold hasValue, ActivateController.
  destruct b as [|d [v|]|d v]; cbn; try done; intros _.
  all: eexists _, _; split; [reflexivity|]; split; [by eexists|].
  all: destruct (newBinder d bindValues); [apply calls_binder_lines|reflexivity].
Qed.

(** C4, as the code has it. The capabilities [SetName], [BeginRequest] and
    [EndRequest] are required of a template by the type of the parameter,
    and [ActivateController] makes no check of its own and returns no error:
    for every template that is neither nil nor a nil pointer, whatever the
    bind values, it returns a descriptor of pointer type and a nil error;
    [Register] then does not abort and calls the callback once for every
    resolved MethodDescriptor. *)
Theorem activation_returns_no_error b bindValues registerFunc w :
  hasValue b = true ->
  (forall bv w0, exists t w1,
      ActivateController b bv w0 = Ok (t, None, w1) /\ Type_Kind (Typ t) = KPtr) /\
  exists t w1 w2,
    ActivateController b (CallOnActivate b bindValues registerFunc w).1
                         (CallOnActivate b bindValues registerFunc w).2
    = Ok (t, None, w1) /\
    RegisterMethodHandlers t registerFunc w1 = Ok w2 /\
    Register b bindValues registerFunc w = Ok (None, w2) /\
    length (calls w2) =
      length (calls (CallOnActivate b bindValues registerFunc w).2)
      + length (methodfunc_Resolve (Typ t)).1.
Proof.
  intros Hb. split.
  - intros bv w0.
    destruct (@ActivateController_hasValue b bv w0 Hb) as (t & w1 & Hact & [elem Ht] & _).
    exists t, w1. split; [done|]. by rewrite Ht.
  - unfold Register.
    destruct (CallOnActivate b bindValues registerFunc w) as [bv wa]. cbn [fst snd].
    destruct (@ActivateController_hasValue b bv wa Hb) as (t & w1 & Hact & [elem Ht] & Hc).
    exists t, w1. eexists. rewrite Hact. cbn [rbind].
    rewrite (@RegisterMethodHandlers_spec t elem registerFunc w1 Ht). cbn [rbind].
    repeat split. cbn [calls]. rewrite length_app, length_map. by rewrite Hc.
Qed.

End Registration.

(** * Further properties of the activator *)

(** ** The qualified name *)

Section QualifiedName.

Lemma LastIndexByte_absent s c : hasByte c s = false -> LastIndexByte s c = (-1)%Z.
Proof.
  induction s as [|a rest IH]; [done|]. cbn [hasByte LastIndexByte].
  intros [Ha Hr]%orb_false_iff. rewrite (IH Hr), Ha. reflexivity.
Qed.

Lemma LastIndexByte_ge s c : (-1 <= LastIndexByte s c)%Z.
Proof.
  induction s as [|a rest IH]; cbn [LastIndexByte]; [lia|].
  destruct (LastIndexByte rest c <? 0)%Z eqn:E; [destruct (Ascii.eqb a c)|]; lia.
Qed.

Lemma LastIndexByte_last prefix c seg :
  hasByte c seg = false ->
  LastIndexByte (prefix ++ String c seg) c = Z.of_nat (String.length prefix).
Proof.
  intros Hseg. induction prefix as [|a rest IH].
  - change (LastIndexByte (String c seg) c = 0%Z). cbn [LastIndexByte].
    rewrite (LastIndexByte_absent _ _ Hseg). cbn. by rewrite Ascii.eqb_refl.
  - change (LastIndexByte (String a (rest ++ String c seg)) c
            = Z.of_nat (S (String.length rest))).
    cbn [LastIndexByte]. rewrite IH.
    destruct (Z.of_nat (String.length rest) <? 0)%Z eqn:E; lia.
Qed.

Lemma substring_all s : substring 0 (String.length s) s = s.
Proof. induction s as [|a rest IH]; [done|]. cbn. by rewrite IH. Qed.

Lemma sliceFrom_after prefix c seg :
  sliceFrom (prefix ++ String c seg) (Z.of_nat (String.length prefix) + 1) = seg.
Proof.
  unfold sliceFrom.
  replace (Z.to_nat (Z.of_nat (String.length prefix) + 1)) with (S (String.length prefix)) by lia.
  induction prefix as [|a rest IH].
  - change (substring 0 (String.length seg - 0) seg = seg).
    rewrite Nat.sub_0_r. apply substring_all.
  - exact IH.
Qed.

End QualifiedName.

(** ** More on activation *)

Section Activation.

Context {sub : Substrate} {C : Collaborators}.

Implicit Types (b : BaseValue) (bindValues : list BindValue) (w : Registry)
  (registerFunc : RegisterFunc) (d : TypeDecl) (v : Inst).

Lemma binder_lines fullName (fs : list string) w :
  foldl (fun w bf => golog (DebugBinderLoaded fullName bf) w) w fs
  = {| log := log w ++ map (DebugBinderLoaded fullName) fs;
       calls := calls w; host := host w |}.
Proof.
  revert w. induction fs as [|x fs IH]; intros w; cbn [foldl map].
  - rewrite app_nil_r. by destruct w.
  - rewrite IH. cbn [golog log calls host]. by rewrite <- app_assoc.
Qed.

(** The descriptor of a template whose value is [v], of type [d], given by
    value or by pointer. *)
Lemma ActivateController_of_value b d v bindValues w :
  reflect_Indirect (reflect_ValueOf b) = VStruct d v ->
  ActivateController b bindValues w =
  Ok ({| Name := TypeName d;
         FullName := fullNameOf (PkgPath d) (TypeName d);
         Typ := TPtr d;
         Value := VStruct d v;
         binder := newBinder d bindValues;
         modelController := model_Load (TPtr d);
         persistenceController := persistence_Load (TPtr d) (VStruct d v) |},
      None,
      {| log := log w ++ map (DebugBinderLoaded (fullNameOf (PkgPath d) (TypeName d)))
                             (match newBinder d bindValues with
                              | Some bd => fields bd
                              | None => []
                              end);
         calls := calls w; host := host w |}).
Proof.
  intros Hv. unfold ActivateController.
  destruct b as [|d' [v'|]|d' v']; cbn in Hv; try discriminate Hv;
    injection Hv as -> ->; cbn;
    (destruct (newBinder d bindValues) as [bd|];
     [by rewrite binder_lines|cbn; rewrite app_nil_r; by destruct w]).
Qed.

(** X3. A controller passed by value and the same controller passed by
    pointer get descriptors of the same type, the pointer type [*T], with
    the same name and qualified name, a binder built from [T] and the bind
    values and a model controller built from [*T]; the same lines are
    written to the log. (The [Value] of the two descriptors, and the
    persistence controller built from it, are left out: one refers to the
    controller that was passed, the other to a copy.) *)
Theorem value_and_pointer_templates_activate_alike d v bindValues w :
  exists t1 w1 t2 w2,
    ActivateController (StructOf d v) bindValues w = Ok (t1, None, w1) /\
    ActivateController (PointerTo d (Some v)) bindValues w = Ok (t2, None, w2) /\
    Typ t1 = TPtr d /\ Typ t2 = TPtr d /\
    Name t1 = TypeName d /\ Name t2 = TypeName d /\
    FullName t1 = FullName t2 /\
    binder t1 = newBinder d bindValues /\ binder t2 = newBinder d bindValues /\
    modelController t1 = model_Load (TPtr d) /\
    modelController t2 = model_Load (TPtr d) /\
    w1 = w2.
Proof.
  rewrite (@ActivateController_of_value (StructOf d v) d v bindValues w eq_refl).
  rewrite (@ActivateController_of_value (PointerTo d (Some v)) d v bindValues w eq_refl).
  eexists _, _, _, _. split; [reflexivity|]. split; [reflexivity|]. by repeat split.
Qed.

(** X4. Activation registers nothing: whenever [ActivateController]
    returns, the registration callback has not been called and the host
    router is as it was; the log has gained one debug line per field of the
    binder, in the order of the fields, and nothing else. *)
Theorem activation_registers_nothing b bindValues w t e w' :
  ActivateController b bindValues w = Ok (t, e, w') ->
  calls w' = calls w /\
  host w' = host w /\
  log w' = log w ++ map (DebugBinderLoaded (FullName t))
                        (match binder t with Some bd => fields bd | None => [] end).
Proof.
  intros Hact.
  destruct (reflect_Indirect (reflect_ValueOf b)) as [|d v|d tg] eqn:Hv.
  - unfold ActivateController in Hact. rewrite Hv in Hact.
    by destruct (reflect_TypeOf b).
  - rewrite (@ActivateController_of_value b d v bindValues w Hv) in Hact.
    by injection Hact as <- <- <-.
  - by destruct b as [|d' [v'|]|d' v'].
Qed.

(** X1. The qualified name of the descriptor is the last segment of the
    package path of the controller type, a dot, and the name of the type:
    whatever precedes the last slash of the package path is dropped. *)
Theorem FullName_keeps_the_last_path_segment b d v bindValues w (prefix seg : string) :
  reflect_Indirect (reflect_ValueOf b) = VStruct d v ->
  PkgPath d = (prefix ++ "/" ++ seg)%string ->
  hasByte "/" seg = false ->
  exists t w',
    ActivateController b bindValues w = Ok (t, None, w') /\
    Name t = TypeName d /\
    FullName t = (seg ++ "." ++ TypeName d)%string.
Proof.
  intros Hv Hpkg Hseg.
  rewrite (@ActivateController_of_value b d v bindValues w Hv).
  eexists _, _. split; [reflexivity|]. split; [reflexivity|].
  cbn [FullName]. unfold fullNameOf. rewrite Hpkg.
  change (prefix ++ "/" ++ seg)%string with (prefix ++ String "/" seg)%string.
  by rewrite (LastIndexByte_last prefix "/" seg Hseg), sliceFrom_after.
Qed.

(** X2. When the package path of the controller type has no slash, the
    qualified name is the whole package path, a dot, and the name of the
    type. *)
Theorem FullName_of_a_path_without_slash b d v bindValues w :
  reflect_Indirect (reflect_ValueOf b) = VStruct d v ->
  hasByte "/" (PkgPath d) = false ->
  exists t w',
    ActivateController b bindValues w = Ok (t, None, w') /\
    FullName t = (PkgPath d ++ "." ++ TypeName d)%string.
Proof.
  intros Hv Hpkg.
  rewrite (@ActivateController_of_value b d v bindValues w Hv).
  eexists _, _. split; [reflexivity|].
  cbn [FullName]. unfold fullNameOf, sliceFrom.
  rewrite (LastIndexByte_absent _ _ Hpkg). cbn [Z.add Z.to_nat Z.opp Z.pos_sub].
  change (Z.to_nat (-1 + 1)) with 0. by rewrite Nat.sub_0_r, substring_all.
Qed.

(** X5. [ActivateController] panics exactly for the templates it cannot
    take a value of: on the nil interface with a nil dereference (in
    [typ.Kind()]), on a nil pointer in [val.Type()]; for every other
    template it returns a descriptor and a nil error. *)
Theorem activation_panics_exactly_without_a_value b bindValues w :
  match ActivateController b bindValues w with
  | Ok (_, e, _) => e = None /\ hasValue b = true
  | Panic msg =>
      hasValue b = false /\
      msg = if providesBaseController b
            then "reflect: call of reflect.Value.Type on zero Value"
            else nilDereference
  end.
Proof.
  destruct b as [|d [v|]|d v].
  - done.
  - by rewrite (@ActivateController_of_value (PointerTo d (Some v)) d v bindValues w eq_refl).
  - done.
  - by rewrite (@ActivateController_of_value (StructOf d v) d v bindValues w eq_refl).
Qed.

(** X6. [Register] never returns an error: it panics exactly for the nil
    interface and for a nil pointer, and for every other template it
    returns nil, whatever the pre-activation hook, the resolver and the
    callback do. *)
Theorem Register_returns_nil_or_panics b bindValues registerFunc w :
  match Register b bindValues registerFunc w with
  | Ok (e, _) => e = None /\ hasValue b = true
  | Panic _ => hasValue b = false
  end.
Proof.
  unfold Register.
  destruct (CallOnActivate b bindValues registerFunc w) as [bv wa].
  destruct b as [|d [v|]|d v]; try done.
  - rewrite (@ActivateController_of_value (PointerTo d (Some v)) d v bv wa eq_refl).
    cbn [rbind]. by erewrite RegisterMethodHandlers_spec by reflexivity.
  - rewrite (@ActivateController_of_value (StructOf d v) d v bv wa eq_refl).
    cbn [rbind]. by erewrite RegisterMethodHandlers_spec by reflexivity.
Qed.

End Activation.

(** ** More on the handler *)

Section Handler.

Context {sub : Substrate}.

Implicit Types (t : TController) (m : MethodFunc) (r : Request) (h : Heap)
  (hf : HandlerFunc) (elem : TypeDecl).

(** X7. What an unobstructed request ends with. [BeginRequest] receives the
    instance as the binder, [SetName] and the persistence controller left
    it; the user method receives what [BeginRequest] left; the model
    controller reads the instance the method left and cannot change it;
    [EndRequest] receives the context the model controller wrote to, and
    does so even when the user method has stopped the request. The
    instance ends up in the one cell added to the heap. *)
Theorem unobstructed_result t m hf r h elem g call :
  HandlerOf t m = Ok (Some hf) ->
  Typ t = TPtr elem ->
  Value_Method elem (Index m) = Some g ->
  MethodCall m = Some call ->
  IsStopped (ctx r) = false ->
  IsStopped (BeginRequest (base elem) (ctx r) (prepared t elem)).1 = false ->
  let began := BeginRequest (base elem) (ctx r) (prepared t elem) in
  let handled := call g began.1 began.2 in
  let ended := EndRequest (base elem) (propagated t handled.1 handled.2) handled.2 in
  exists r',
    hf r h = Ok (r', h ++ [ended.2]) /\
    ctx r' = ended.1 /\
    ran isModelHandle r r' = bool_decide (modelController t <> None) /\
    ran isEndRequest r r' = true.
Proof.
  intros Hh Ht Hg Hcall Hs Hb began handled ended.
  rewrite (@HandlerOf_lifecycle _ t elem m hf Ht Hh). unfold lifecycle, served.
  rewrite Hs, Hb, Hg, Hcall. eexists. split; [reflexivity|]. split; [reflexivity|].
  split; (erewrite ran_after by reflexivity); rewrite preparation_stages by reflexivity.
  - rewrite bool_decide_ne_None. by destruct (modelController t).
  - by destruct (modelController t).
Qed.

(** X8. A handler that returns has added exactly one cell to the heap, at
    its end, and has left every cell that was there as it was; the cell is
    the one instance recorded for the request, allocated as the zero value
    of the controller type. *)
Theorem handler_only_appends_to_the_heap t m hf r h r' h' :
  HandlerOf t m = Ok (Some hf) ->
  hf r h = Ok (r', h') ->
  exists elem v,
    Typ t = TPtr elem /\
    h' = h ++ [v] /\
    allocs r' = allocs r ++ [(length h, zero elem)] /\
    forall i, i < length h -> h' !! i = h !! i.
Proof.
  intros Hh Hrun. destruct (HandlerOf_inv _ _ Hh) as (elem & Ht & Hlc).
  rewrite Hlc in Hrun. unfold lifecycle, served in Hrun.
  assert (Hshape : exists v, h' = h ++ [v] /\ allocs r' = allocs r ++ [(length h, zero elem)]).
  { repeat match type of Hrun with
           | context [if ?b then _ else _] => destruct b
           | context [match ?o with Some _ => _ | None => _ end] => destruct o
           end;
      try discriminate Hrun; injection Hrun as <- <-; by eexists. }
  destruct Hshape as (v & -> & Ha). exists elem, v. repeat split; try done.
  intros i Hi. by rewrite lookup_app_l.
Qed.

(** X9. Nothing leaks from one request into another through the heap: the
    handler treats a request in the same way whatever instances earlier
    requests have left. On two heaps it panics with the same message or
    returns the same context, the same calls and the same final instance. *)
Theorem handler_does_not_read_the_heap t m hf r h1 h2 :
  HandlerOf t m = Ok (Some hf) ->
  match hf r h1, hf r h2 with
  | Ok (r1, h1'), Ok (r2, h2') =>
      ctx r1 = ctx r2 /\
      map stageOf (trace r1) = map stageOf (trace r2) /\
      last h1' = last h2'
  | Panic msg1, Panic msg2 => msg1 = msg2
  | _, _ => False
  end.
Proof.
  intros Hh. destruct (HandlerOf_inv _ _ Hh) as (elem & Ht & Hlc).
  rewrite !Hlc. unfold lifecycle, served, preparation, whenPresent.
  repeat match goal with
         | |- context [if ?b then _ else _] => destruct b
         | |- context [match ?o with Some _ => _ | None => _ end] => destruct o
         end;
    try reflexivity;
    (split; [reflexivity|]; split; [|by rewrite !last_snoc]);
    cbn [trace]; rewrite !map_app; reflexivity.
Qed.

(** X10. The handler panics exactly when the descriptor is malformed and
    the request reaches the method call, that is when it is stopped neither
    on entry nor by [BeginRequest]; in every other case it returns. *)
Theorem handler_panics_exactly_at_a_malformed_method t m hf r h elem :
  HandlerOf t m = Ok (Some hf) ->
  Typ t = TPtr elem ->
  (exists msg, hf r h = Panic msg) <->
  malformed elem m = true /\
  IsStopped (ctx r) = false /\
  IsStopped (BeginRequest (base elem) (ctx r) (prepared t elem)).1 = false.
Proof.
  intros Hh Ht. rewrite (@HandlerOf_lifecycle _ t elem m hf Ht Hh).
  unfold lifecycle, malformed, wellFormed.
  destruct (IsStopped (ctx r)); [split; [by intros [? ?]|by intros (_ & ? & _)]|].
  destruct (IsStopped _); [split; [by intros [? ?]|by intros (_ & _ & ?)]|].
  destruct (Value_Method elem (Index m)) as [g|]; [|split; [done|by eexists]].
  destruct (MethodCall m) as [call|]; [|split; [done|by eexists]].
  split; [by intros [? ?]|by intros (? & _)].
Qed.


End Handler.

(** ** More on registration *)

Section MoreRegistration.

Context {sub : Substrate} {C : Collaborators}.

Implicit Types (t : TController) (w : Registry) (registerFunc : RegisterFunc)
  (b : BaseValue) (d : TypeDecl) (v : Inst) (bindValues : list BindValue).

(** X12. When the resolver returns no method, [RegisterMethodHandlers]
    never calls the registration callback, whatever the descriptor: the
    registry only gains the error line of the resolver, if it reported
    one. *)
Theorem no_resolved_method_registers_nothing t registerFunc w :
  (methodfunc_Resolve (Typ t)).1 = [] ->
  RegisterMethodHandlers t registerFunc w =
  Ok {| log := log w ++ resolveLine t; calls := calls w; host := host w |}.
Proof.
  unfold RegisterMethodHandlers, resolveLine.
  destruct (methodfunc_Resolve (Typ t)) as [methods [e|]]; cbn [fst snd];
    intros ->; cbn [registerEach golog].
  - reflexivity.
  - rewrite app_nil_r. by destruct w.
Qed.

(** X13. [Register] activates the controller with the bind values as the
    pre-activation hook left them, so the binder of the descriptor, and
    with it the middleware of every route, is built from the adjusted
    values; the routes of the controller are registered after whatever the
    hook registered itself, in the order of the resolver. *)
Theorem Register_uses_the_adjusted_bind_values b d v bindValues registerFunc w :
  reflect_Indirect (reflect_ValueOf b) = VStruct d v ->
  exists t w1 w2,
    ActivateController b (CallOnActivate b bindValues registerFunc w).1
                         (CallOnActivate b bindValues registerFunc w).2
    = Ok (t, None, w1) /\
    Register b bindValues registerFunc w = Ok (None, w2) /\
    binder t = newBinder d (CallOnActivate b bindValues registerFunc w).1 /\
    calls w2 =
      calls (CallOnActivate b bindValues registerFunc w).2
      ++ map (routeOf t d (binderMiddleware t)) (methodfunc_Resolve (Typ t)).1.
Proof.
  intros Hv. unfold Register.
  destruct (CallOnActivate b bindValues registerFunc w) as [bv wa]. cbn [fst snd].
  rewrite (@ActivateController_of_value _ _ b d v bv wa Hv). cbn [rbind].
  eexists _, _, _. split; [reflexivity|].
  erewrite RegisterMethodHandlers_spec by reflexivity. cbn [rbind].
  split; [reflexivity|]. split; reflexivity.
Qed.

End MoreRegistration.

(** ** More on the workers *)

Section MoreWorkers.

Context {sub : Substrate}.

Implicit Types (p : Prog) (f : Frame) (h : Heap) (t : TController)
  (th : Thread) (pool : list Thread).


End MoreWorkers.

(** * The properties on the concrete controllers *)

Section Examples.

Import Ex.

(** The qualified name is the last segment of the package path, a dot and
    the type name. *)
Lemma fullNameOf_examples :
  fullNameOf "login-example/user" "Controller" = "user.Controller" /\
  fullNameOf "main" "Controller" = "main.Controller" /\
  FullName (fullT Items) = "items.Items".
Proof. by vm_compute. Qed.



(** A request stopped by a middleware reaches no stage of [Items]. *)
Lemma stopped_before_BeginRequest_witness :
  let t := fullT Items in
  let r := newRequest stoppedContext in
  HandlerOf t getFunc = Ok (Some (closure t Items getFunc)) /\
  IsStopped (ctx r) = true /\
  exists r' h',
    closure t Items getFunc r [] = Ok (r', h') /\
    ran isBeginRequest r r' = false /\
    ran isMethodCall r r' = false /\
    ran isModelHandle r r' = false /\
    ran isEndRequest r r' = false /\
    ctx r' = ctx r.
Proof.
  cbv zeta. repeat (split; [reflexivity|]).
  apply (@stopped_before_BeginRequest_runs_no_stage substrate (fullT Items) getFunc
           (closure (fullT Items) Items getFunc) (@newRequest substrate stoppedContext) []);
    reflexivity.
Defined.

(** A stopped request to [POST /] still gets its prepared instance, next
    to the one already on the heap. *)
Lemma stopped_on_entry_witness :
  let t := fullT Items in
  let r := newRequest stoppedContext in
  HandlerOf t postFunc = Ok (Some (closure t Items postFunc)) /\
  IsStopped (ctx r) = true /\
  exists elem,
    Typ t = TPtr elem /\
    [template] !! 1 = None /\
    closure t Items postFunc r [template] =
    Ok ({| ctx := ctx r;
           trace := trace r
                    ++ whenPresent (binder t) (EvBinderHandle 1)
                    ++ [EvSetName 1 (Name t)]
                    ++ whenPresent (persistenceController t) (EvPersistenceHandle 1);
           allocs := allocs r ++ [(1, zero elem)] |},
        [template] ++ [restored t (SetName (base elem) (Name t) (bound t (zero elem)))]).
Proof.
  cbv zeta. repeat (split; [reflexivity|]).
  apply (@stopped_on_entry_still_prepares_the_instance substrate (fullT Items) postFunc
           (closure (fullT Items) Items postFunc) (@newRequest substrate stoppedContext) [template]);
    reflexivity.
Defined.

(** An unobstructed [POST /] on [Items] with every collaborator. *)
Lemma unobstructed_order_witness :
  let t := fullT Items in
  let r := @newRequest substrate freshContext in
  HandlerOf t postFunc = Ok (Some (closure t Items postFunc)) /\
  Typ t = TPtr Items /\
  Value_Method Items (Index postFunc) = Some Post /\
  MethodCall postFunc = Some plainCall /\
  IsStopped (ctx r) = false /\
  IsStopped (BeginRequest (base Items) (ctx r) (prepared t Items)).1 = false /\
  let c := length ([] : list Controller) in
  let injected := bound t (zero Items) in
  let named := SetName (base Items) (Name t) injected in
  let persisted := restored t named in
  let began := BeginRequest (base Items) (ctx r) persisted in
  let handled := plainCall Post began.1 began.2 in
  let shown := propagated t handled.1 handled.2 in
  let ended := EndRequest (base Items) shown handled.2 in
  closure t Items postFunc r [] =
  Ok ({| ctx := ended.1;
         trace :=
           trace r
           ++ whenPresent (binder t) (EvBinderHandle c)
           ++ [EvSetName c (Name t)]
           ++ whenPresent (persistenceController t) (EvPersistenceHandle c)
           ++ [EvBeginRequest c; EvMethodCall (Index postFunc) c]
           ++ whenPresent (modelController t) (EvModelHandle c)
           ++ [EvEndRequest c];
         allocs := allocs r ++ [(c, zero Items)] |},
      [] ++ [ended.2]).
Proof.
  cbv zeta. repeat (split; [reflexivity|]).
  apply (@unobstructed_order substrate (fullT Items) postFunc
           (closure (fullT Items) Items postFunc) (@newRequest substrate freshContext) []
           Items Post plainCall);
    reflexivity.
Defined.

(** The three interleaved requests leave the descriptor of [Items] alone. *)
Lemma descriptor_unchanged_witness :
  Typ (fullT Items) = TPtr Items /\
  run schedule threeRequests [] = Ok afterSchedule /\
  forall th, th ∈ afterSchedule.1 -> captured (frame th) = fullT Items.
Proof.
  split; [reflexivity|]. split; [vm_compute; reflexivity|].
  apply (@handler_leaves_descriptor_unchanged substrate (fullT Items) getFunc Items
           threeContexts schedule [] afterSchedule.1
           afterSchedule.2);
    [reflexivity|vm_compute; reflexivity].
Defined.


(** [Items] registers its two methods although the resolver reports an
    error. *)
Lemma routes_count_witness :
  let t := fullT Items in
  Typ t = TPtr Items /\
  exists w',
    RegisterMethodHandlers t recordRoute emptyRegistry = Ok w' /\
    length (calls w') =
      length (calls emptyRegistry)
      + (length (methodfunc_Resolve (Typ t)).1
         - buildFailures t (methodfunc_Resolve (Typ t)).1) /\
    take (length (calls emptyRegistry)) (calls w') = calls emptyRegistry /\
    host w' = registered recordRoute (drop (length (calls emptyRegistry)) (calls w'))
                (host emptyRegistry) /\
    map relPath (drop (length (calls emptyRegistry)) (calls w'))
    = map RelPath (methodfunc_Resolve (Typ t)).1 /\
    map httpMethod (drop (length (calls emptyRegistry)) (calls w'))
    = map HTTPMethod (methodfunc_Resolve (Typ t)).1 /\
    (forall e, (methodfunc_Resolve (Typ t)).2 = Some e ->
       ErrorResolve (FullName t) e ∈ log w' /\
       map relPath (drop (length (calls emptyRegistry)) (calls w'))
       = map RelPath (methodfunc_Resolve (Typ t)).1).
Proof.
  cbv zeta. split; [reflexivity|].
  apply (@routes_are_resolved_methods_less_build_failures substrate collaborators
           (fullT Items) Items recordRoute emptyRegistry).
  reflexivity.
Defined.

(** Each route of [Items] gets the middleware of the binder, then its
    handler. *)
Lemma registered_with_middleware_witness :
  let t := fullT Items in
  Typ t = TPtr Items /\
  exists w' hs,
    RegisterMethodHandlers t recordRoute emptyRegistry = Ok w' /\
    Forall2 (fun m hf => HandlerOf t m = Ok (Some hf)) (methodfunc_Resolve (Typ t)).1 hs /\
    calls w' =
      calls emptyRegistry
      ++ zip_with (fun m hf => {| relPath := RelPath m;
                                  httpMethod := HTTPMethod m;
                                  handlers := binderMiddleware t ++ [Some hf] |})
                  (methodfunc_Resolve (Typ t)).1 hs /\
    host w' = registered recordRoute (drop (length (calls emptyRegistry)) (calls w'))
                (host emptyRegistry).
Proof.
  cbv zeta. split; [reflexivity|].
  apply (@each_method_is_registered_with_middleware_then_handler substrate collaborators
           (fullT Items) Items recordRoute emptyRegistry).
  reflexivity.
Defined.

(** C6 fails on the code. [outOfRangeFunc] is malformed for [Items], yet
    [HandlerOf] yields a handler for it, and when the resolver returns it
    [RegisterMethodHandlers] registers [PUT /] with the others and writes
    no warning; the handler panics when the request reaches the method. *)
Lemma malformed_descriptor_gets_a_handler_and_a_route :
  let t := fullT Items in
  malformed Items outOfRangeFunc = true /\
  HandlerOf t outOfRangeFunc <> Ok None /\
  exists w',
    @RegisterMethodHandlers substrate carelessCollaborators t recordRoute emptyRegistry
    = Ok w' /\
    host w' = [("GET", "/"); ("PUT", "/"); ("DELETE", "/"); ("POST", "/")] /\
    filter (fun e => isWarnNilHandler e = true) (log w') = [] /\
    serve t outOfRangeFunc freshContext [] = Panic methodIndexOutOfRange.
Proof.
  cbv zeta. split; [reflexivity|]. split; [discriminate|].
  eexists. split; [vm_compute; reflexivity|]. by vm_compute.
Qed.

(** The descriptor with a nil adapter gets a handler, and all four
    descriptors of the careless resolver are registered. *)
Lemma HandlerOf_yields_a_handler_witness :
  let t := fullT Items in
  Typ t = TPtr Items /\
  (exists hf, HandlerOf t nilCallFunc = Ok (Some hf)) /\
  buildFailures t (@methodfunc_Resolve substrate carelessCollaborators (Typ t)).1 = 0 /\
  exists w',
    @RegisterMethodHandlers substrate carelessCollaborators t recordRoute emptyRegistry
    = Ok w' /\
    map (fun rc => (relPath rc, httpMethod rc)) (drop (length (calls emptyRegistry)) (calls w'))
    = map (fun m => (RelPath m, HTTPMethod m))
          (@methodfunc_Resolve substrate carelessCollaborators (Typ t)).1 /\
    filter (fun e => isWarnNilHandler e = true) (log w')
    = filter (fun e => isWarnNilHandler e = true) (log emptyRegistry).
Proof.
  cbv zeta. split; [reflexivity|].
  apply (@HandlerOf_yields_a_handler_for_every_descriptor substrate carelessCollaborators
           (fullT Items) Items nilCallFunc recordRoute emptyRegistry).
  reflexivity.
Defined.

(** C4 fails on the code. The nil template provides none of the three
    capabilities; [ActivateController] does not return an error for it, it
    panics, and so does [Register]. *)
Lemma nil_template_is_not_reported_as_an_error :
  providesBaseController NilInterface = false /\
  ~ returnsError (ActivateController NilInterface [7%Z] emptyRegistry) /\
  ActivateController NilInterface [7%Z] emptyRegistry = Panic nilDereference /\
  Register NilInterface [7%Z] recordRoute emptyRegistry = Panic nilDereference.
Proof.
  split; [reflexivity|]. split; [|split; reflexivity].
  intros (t & e & w & H). discriminate H.
Qed.

(** A pointer to an [Items] template activates and registers. *)
Lemma activation_returns_no_error_witness :
  let b := PointerTo Items (Some template) in
  hasValue b = true /\
  (forall bv w0, exists t w1,
      ActivateController b bv w0 = Ok (t, None, w1) /\ Type_Kind (Typ t) = KPtr) /\
  exists t w1 w2,
    ActivateController b (CallOnActivate b [7%Z] recordRoute emptyRegistry).1
                         (CallOnActivate b [7%Z] recordRoute emptyRegistry).2
    = Ok (t, None, w1) /\
    RegisterMethodHandlers t recordRoute w1 = Ok w2 /\
    Register b [7%Z] recordRoute emptyRegistry = Ok (None, w2) /\
    length (calls w2) =
      length (calls (CallOnActivate b [7%Z] recordRoute emptyRegistry).2)
      + length (methodfunc_Resolve (Typ t)).1.
Proof.
  cbv zeta. split; [reflexivity|].
  apply (@activation_returns_no_error substrate collaborators
           (PointerTo Items (Some template)) [7%Z] recordRoute emptyRegistry).
  reflexivity.
Defined.

(** The scenario of the specification: [Items] with [Get] and [Post]
    yields exactly [GET /] and [POST /], and a persistent counter of 5 is
    seen by every request whatever the earlier ones did. *)
Lemma Items_scenario :
  (exists w, Register (StructOf Items template) [] recordRoute emptyRegistry = Ok (None, w)
             /\ host w = [("GET", "/"); ("POST", "/")]) /\
  (exists r1 h1 r2 h2,
      serve (fullT Items) getFunc freshContext [] = Ok (r1, h1) /\
      serve (fullT Items) getFunc freshContext h1 = Ok (r2, h2) /\
      viewData (ctx r1) = [6%Z] /\ viewData (ctx r2) = [6%Z] /\
      allocs r1 = [(0, zeroController)] /\ allocs r2 = [(1, zeroController)]).
Proof.
  split.
  - eexists. split; vm_compute; reflexivity.
  - eexists _, _, _, _.
    split; [vm_compute; reflexivity|].
    split; [vm_compute; reflexivity|].
    by vm_compute.
Qed.

End Examples.

Section MoreExamples.

Import Ex.

(** [Items] lives in [github.com/example/shop/items]. *)
Lemma FullName_last_segment_witness :
  reflect_Indirect (reflect_ValueOf (StructOf Items template)) = VStruct Items template /\
  PkgPath Items = ("github.com/example/shop" ++ "/" ++ "items")%string /\
  hasByte "/" "items" = false /\
  exists t w',
    ActivateController (StructOf Items template) [] emptyRegistry = Ok (t, None, w') /\
    Name t = TypeName Items /\
    FullName t = ("items" ++ "." ++ TypeName Items)%string.
Proof.
  repeat (split; [reflexivity|]).
  apply (@FullName_keeps_the_last_path_segment substrate collaborators
           (StructOf Items template) Items template [] emptyRegistry
           "github.com/example/shop" "items");
    reflexivity.
Defined.

(** [Guarded] lives in [main]. *)
Lemma FullName_without_slash_witness :
  reflect_Indirect (reflect_ValueOf (PointerTo Guarded (Some template)))
  = VStruct Guarded template /\
  hasByte "/" (PkgPath Guarded) = false /\
  exists t w',
    ActivateController (PointerTo Guarded (Some template)) [] emptyRegistry
    = Ok (t, None, w') /\
    FullName t = (PkgPath Guarded ++ "." ++ TypeName Guarded)%string.
Proof.
  repeat (split; [reflexivity|]).
  apply (@FullName_of_a_path_without_slash substrate collaborators
           (PointerTo Guarded (Some template)) Guarded template [] emptyRegistry);
    reflexivity.
Defined.

(** The activation of [Items] with a bind value logs the field of the
    binder and registers nothing. *)
Lemma activation_registers_nothing_witness :
  ActivateController (PointerTo Items (Some template)) [7%Z] emptyRegistry
  = Ok activatedItems /\
  calls activatedItems.2 = calls emptyRegistry /\
  host activatedItems.2 = host emptyRegistry /\
  log activatedItems.2 =
    log emptyRegistry
    ++ map (DebugBinderLoaded (FullName activatedItems.1.1))
           (match binder activatedItems.1.1 with Some bd => fields bd | None => [] end).
Proof.
  split; [vm_compute; reflexivity|].
  apply (@activation_registers_nothing substrate collaborators
           (PointerTo Items (Some template)) [7%Z] emptyRegistry
           activatedItems.1.1 activatedItems.1.2 activatedItems.2).
  vm_compute; reflexivity.
Defined.

(** An unobstructed [GET /] on [Items]. *)
Lemma unobstructed_result_witness :
  let t := fullT Items in
  let r := @newRequest substrate freshContext in
  HandlerOf t getFunc = Ok (Some (closure t Items getFunc)) /\
  Typ t = TPtr Items /\
  Value_Method Items (Index getFunc) = Some Get /\
  MethodCall getFunc = Some plainCall /\
  IsStopped (ctx r) = false /\
  IsStopped (BeginRequest (base Items) (ctx r) (prepared t Items)).1 = false /\
  let began := BeginRequest (base Items) (ctx r) (prepared t Items) in
  let handled := plainCall Get began.1 began.2 in
  let ended := EndRequest (base Items) (propagated t handled.1 handled.2) handled.2 in
  exists r',
    closure t Items getFunc r [] = Ok (r', [] ++ [ended.2]) /\
    ctx r' = ended.1 /\
    ran isModelHandle r r' = bool_decide (modelController t <> None) /\
    ran isEndRequest r r' = true.
Proof.
  cbv zeta. repeat (split; [reflexivity|]).
  apply (@unobstructed_result substrate (fullT Items) getFunc
           (closure (fullT Items) Items getFunc) (@newRequest substrate freshContext) []
           Items Get plainCall);
    reflexivity.
Defined.

(** The template on the heap is left alone by a [GET /]. *)
Lemma handler_only_appends_witness :
  let t := fullT Items in
  let r := @newRequest substrate freshContext in
  HandlerOf t getFunc = Ok (Some (closure t Items getFunc)) /\
  closure t Items getFunc r [template] = Ok servedGet /\
  exists elem v,
    Typ t = TPtr elem /\
    servedGet.2 = [template] ++ [v] /\
    allocs servedGet.1 = allocs r ++ [(1, zero elem)] /\
    forall i, i < 1 -> servedGet.2 !! i = [template] !! i.
Proof.
  cbv zeta. split; [reflexivity|]. split; [vm_compute; reflexivity|].
  apply (@handler_only_appends_to_the_heap substrate (fullT Items) getFunc
           (closure (fullT Items) Items getFunc) (@newRequest substrate freshContext)
           [template] servedGet.1 servedGet.2);
    [reflexivity|vm_compute; reflexivity].
Defined.

(** A [GET /] on the empty heap and next to two other instances. *)
Lemma handler_does_not_read_the_heap_witness :
  let t := fullT Items in
  let r := @newRequest substrate freshContext in
  HandlerOf t getFunc = Ok (Some (closure t Items getFunc)) /\
  match closure t Items getFunc r [], closure t Items getFunc r [template; zeroController] with
  | Ok (r1, h1'), Ok (r2, h2') =>
      ctx r1 = ctx r2 /\
      map stageOf (trace r1) = map stageOf (trace r2) /\
      last h1' = last h2'
  | Panic msg1, Panic msg2 => msg1 = msg2
  | _, _ => False
  end.
Proof.
  cbv zeta. split; [reflexivity|].
  apply (@handler_does_not_read_the_heap substrate (fullT Items) getFunc
           (closure (fullT Items) Items getFunc) (@newRequest substrate freshContext)
           [] [template; zeroController]).
  reflexivity.
Defined.

(** The descriptor with a nil adapter: the handler panics on a fresh
    request. *)
Lemma handler_panics_witness :
  let t := bareT Items in
  let r := @newRequest substrate freshContext in
  HandlerOf t nilCallFunc = Ok (Some (closure t Items nilCallFunc)) /\
  Typ t = TPtr Items /\
  ((exists msg, closure t Items nilCallFunc r [] = Panic msg) <->
   malformed Items nilCallFunc = true /\
   IsStopped (ctx r) = false /\
   IsStopped (BeginRequest (base Items) (ctx r) (prepared t Items)).1 = false).
Proof.
  cbv zeta. repeat (split; [reflexivity|]).
  apply (@handler_panics_exactly_at_a_malformed_method substrate (bareT Items) nilCallFunc
           (closure (bareT Items) Items nilCallFunc) (@newRequest substrate freshContext) []
           Items);
    reflexivity.
Defined.

(** A resolver that finds nothing, on a descriptor whose type is not even a
    pointer type. *)
Lemma no_resolved_method_witness :
  let t := {| Name := "Items"; FullName := "items.Items"; Typ := TNamed Items;
              Value := ZeroValue; binder := None; modelController := None;
              persistenceController := None |} in
  (@methodfunc_Resolve substrate silentCollaborators (Typ t)).1 = [] /\
  @RegisterMethodHandlers substrate silentCollaborators t recordRoute emptyRegistry =
  Ok {| log := log emptyRegistry ++ @resolveLine substrate silentCollaborators t;
        calls := calls emptyRegistry; host := host emptyRegistry |}.
Proof.
  cbv zeta. split; [reflexivity|].
  apply (@no_resolved_method_registers_nothing substrate silentCollaborators).
  reflexivity.
Defined.

(** The hook puts 9 in front of the bind values: the binder injects 9. *)
Lemma Register_adjusted_bind_values_witness :
  let b := PointerTo Items (Some template) in
  reflect_Indirect (reflect_ValueOf b) = VStruct Items template /\
  exists t w1 w2,
    @ActivateController substrate hookedCollaborators b
      (@CallOnActivate substrate hookedCollaborators b [7%Z] recordRoute emptyRegistry).1
      (@CallOnActivate substrate hookedCollaborators b [7%Z] recordRoute emptyRegistry).2
    = Ok (t, None, w1) /\
    @Register substrate hookedCollaborators b [7%Z] recordRoute emptyRegistry
    = Ok (None, w2) /\
    binder t = @newBinder substrate hookedCollaborators Items
                 (@CallOnActivate substrate hookedCollaborators b [7%Z] recordRoute
                    emptyRegistry).1 /\
    calls w2 =
      calls (@CallOnActivate substrate hookedCollaborators b [7%Z] recordRoute
               emptyRegistry).2
      ++ map (routeOf t Items (binderMiddleware t))
             (@methodfunc_Resolve substrate hookedCollaborators (Typ t)).1.
Proof.
  cbv zeta. split; [reflexivity|].
  apply (@Register_uses_the_adjusted_bind_values substrate hookedCollaborators
           (PointerTo Items (Some template)) Items template [7%Z] recordRoute emptyRegistry).
  reflexivity.
Defined.



End MoreExamples.
